(** * Mixpanel MCP adapter: credential resolution and request construction

    A shallow embedding of [src/types/env.ts] (credential parsing and
    validation), of the request helpers and operations of [src/client.ts],
    and of the [/mcp] branch of the worker's fetch handler in [src/index.ts].

    Conventions of the embedding.
    - A JavaScript string is a [string]: a sequence of 8-bit code units
      (the Latin-1 range, which is exactly the range of a header value and
      of an argument of [btoa]).
    - [null] and [undefined] results of lookups are [None].
    - An asynchronous client method is a computation in the [Async] monad:
      it reads the remote service (an oracle from requests to responses)
      and the clock, appends every [fetch] it performs to a call log, and
      ends in a thrown error or a value. *)

From Stdlib Require Import String Ascii List ZArith NArith Bool.
From Stdlib Require Import DecimalString.
From Stdlib Require Import Lia.
Import ListNotations.
Set Warnings "-register-all".
Local Open Scope list_scope.
Local Open Scope string_scope.

(* ================================================================== *)
(** * JavaScript primitives used by the sources *)
(* ================================================================== *)

Module Js.

(** Character codes. *)
Definition code (c : ascii) : N := N_of_ascii c.

Definition in_range (lo hi : N) (c : ascii) : bool :=
  (N.leb lo (code c) && N.leb (code c) hi)%bool.

(** [String.prototype.toLowerCase] on one code unit of the Latin-1 range:
    A-Z and the accented capitals U+00C0..U+00DE (U+00D7, the
    multiplication sign, apart) move 32 places up. *)
Definition lower_char (c : ascii) : ascii :=
  if in_range 65 90 c then ascii_of_N (code c + 32)
  else if (in_range 192 222 c && negb (N.eqb (code c) 215))%bool
       then ascii_of_N (code c + 32)
  else c.

Fixpoint toLowerCase (s : string) : string :=
  match s with
  | EmptyString => EmptyString
  | String c r => String (lower_char c) (toLowerCase r)
  end.

(** Byte-lowercasing of a header name (ASCII letters only). *)
Definition ascii_lower_char (c : ascii) : ascii :=
  if in_range 65 90 c then ascii_of_N (code c + 32) else c.

Fixpoint ascii_lower (s : string) : string :=
  match s with
  | EmptyString => EmptyString
  | String c r => String (ascii_lower_char c) (ascii_lower r)
  end.

(** [Array.prototype.join] on an array of strings. *)
Fixpoint join (sep : string) (l : list string) : string :=
  match l with
  | [] => EmptyString
  | [x] => x
  | x :: r => x ++ sep ++ join sep r
  end.

(** [String.prototype.includes]. *)
Fixpoint includes (s pat : string) : bool :=
  if String.prefix pat s then true
  else match s with
       | EmptyString => false
       | String _ r => includes r pat
       end.

(** [s.includes(c)] for a pattern of one code unit. *)
Fixpoint includes_char (s : string) (c : ascii) : bool :=
  match s with
  | EmptyString => false
  | String d r => if Ascii.eqb d c then true else includes_char r c
  end.

(** The characters the CSV writer looks for. *)
Definition dquote : ascii := ascii_of_N 34.
Definition comma : ascii := ascii_of_N 44.
Definition newline : ascii := ascii_of_N 10.

(** The one-character strings holding a double quote and a line feed. *)
Definition DQ : string := String dquote EmptyString.
Definition NL : string := String newline EmptyString.

(** [str.replace(/DQ/g, DQ DQ)]: every double quote is doubled. *)
Fixpoint double_quotes (s : string) : string :=
  match s with
  | EmptyString => EmptyString
  | String c r =>
      if Ascii.eqb c dquote
      then String dquote (String dquote (double_quotes r))
      else String c (double_quotes r)
  end.

(** Truthiness of a string, and of a nullable string. *)
Definition truthy_string (s : string) : bool :=
  negb (String.eqb s EmptyString).

Definition truthy_opt (o : option string) : bool :=
  match o with
  | Some s => truthy_string s
  | None => false
  end.

(** [o || d] for a nullable string [o]. *)
Definition or_else (o : option string) (d : string) : string :=
  match o with
  | Some s => if truthy_string s then s else d
  | None => d
  end.

(** [o || undefined] for a nullable string [o]. *)
Definition or_undefined (o : option string) : option string :=
  match o with
  | Some s => if truthy_string s then Some s else None
  | None => None
  end.

(** A template-literal placeholder holding a possibly undefined string. *)
Definition template_opt (o : option string) : string :=
  match o with
  | Some s => s
  | None => "undefined"
  end.

(** Decimal rendering of an integer (the [String] of an integral number
    below 10^21 in magnitude; larger numbers print with an exponent and
    are outside the embedding). *)
Definition string_of_Z (z : Z) : string :=
  NilZero.string_of_int (Z.to_int z).

(** ** Numbers *)

(** The numbers the client handles are integral (HTTP statuses, retry
    delays, timestamps); [JNaN] is the not-a-number result of a failed
    conversion. *)
Inductive jsnum : Type :=
| JNum (z : Z)
| JNaN.

(** White space in the sense of [parseInt], within the Latin-1 range. *)
Definition is_ws (c : ascii) : bool :=
  (in_range 9 13 c || N.eqb (code c) 32 || N.eqb (code c) 160)%bool.

Fixpoint skip_ws (s : string) : string :=
  match s with
  | EmptyString => EmptyString
  | String c r => if is_ws c then skip_ws r else s
  end.

Definition digit_val (c : ascii) : option Z :=
  if in_range 48 57 c then Some (Z.of_N (code c) - 48)%Z else None.

(** The value of the longest prefix of decimal digits; [acc] is the value
    read so far, [None] while no digit has been read. *)
Fixpoint take_digits (s : string) (acc : option Z) : option Z :=
  match s with
  | EmptyString => acc
  | String c r =>
      match digit_val c with
      | Some d =>
          take_digits r
            (Some (match acc with Some a => 10 * a + d | None => d end)%Z)
      | None => acc
      end
  end.

(** [parseInt(s, 10)]: leading white space, an optional sign, then the
    longest run of decimal digits; [NaN] when that run is empty.  The
    value is exact: the rounding of integers beyond 2^53 is not part of
    the embedding. *)
Definition parseInt10 (s : string) : jsnum :=
  let s1 := skip_ws s in
  let '(neg, s2) :=
    match s1 with
    | String c r =>
        if N.eqb (code c) 45 then (true, r)
        else if N.eqb (code c) 43 then (false, r)
        else (false, s1)
    | EmptyString => (false, s1)
    end in
  match take_digits s2 None with
  | Some v => JNum (if neg then - v else v)%Z
  | None => JNaN
  end.

(** ** Lines of a text *)

Fixpoint rev_string (s acc : string) : string :=
  match s with
  | EmptyString => acc
  | String c r => rev_string r (String c acc)
  end.

(** [String.prototype.trim]. *)
Definition trim (s : string) : string :=
  rev_string (skip_ws (rev_string (skip_ws s) EmptyString)) EmptyString.

(** [s.split(c)] for a separator of one code unit. *)
Fixpoint split_on (c : ascii) (s : string) : list string :=
  match s with
  | EmptyString => [EmptyString]
  | String d r =>
      if Ascii.eqb d c then EmptyString :: split_on c r
      else match split_on c r with
           | x :: xs => String d x :: xs
           | [] => [String d EmptyString]
           end
  end.

(** ** [btoa]: base64 of a Latin-1 string *)

Definition b64_char (n : N) : ascii :=
  if N.ltb n 26 then ascii_of_N (65 + n)
  else if N.ltb n 52 then ascii_of_N (97 + (n - 26))
  else if N.ltb n 62 then ascii_of_N (48 + (n - 52))
  else if N.eqb n 62 then ascii_of_N 43
  else ascii_of_N 47.

Definition b64_pad : ascii := ascii_of_N 61.

Fixpoint btoa (s : string) : string :=
  match s with
  | EmptyString => EmptyString
  | String a EmptyString =>
      let x := code a in
      String (b64_char (x / 4))
        (String (b64_char ((x mod 4) * 16))
           (String b64_pad (String b64_pad EmptyString)))
  | String a (String b EmptyString) =>
      let x := code a in
      let y := code b in
      String (b64_char (x / 4))
        (String (b64_char ((x mod 4) * 16 + y / 16))
           (String (b64_char ((y mod 16) * 4))
              (String b64_pad EmptyString)))
  | String a (String b (String c r)) =>
      let x := code a in
      let y := code b in
      let z := code c in
      String (b64_char (x / 4))
        (String (b64_char ((x mod 4) * 16 + y / 16))
           (String (b64_char ((y mod 16) * 4 + z / 64))
              (String (b64_char (z mod 64)) (btoa r))))
  end.

(** ** Objects: property lists in enumeration order *)

(** An object is the list of its own enumerable properties in the order
    [Object.keys] and [JSON.stringify] visit them: array-index keys first,
    in ascending numeric order, then the other keys in insertion order. *)
Definition obj (A : Type) : Type := list (string * A).

Fixpoint all_digits (s : string) : bool :=
  match s with
  | EmptyString => true
  | String c r => (in_range 48 57 c && all_digits r)%bool
  end.

(** The array index a key denotes, if it is a canonical numeric string
    below 2^32 - 1. *)
Definition array_index (k : string) : option N :=
  match k with
  | EmptyString => None
  | String c r =>
      if (all_digits k && (negb (N.eqb (code c) 48) || String.eqb r EmptyString))%bool
      then match take_digits k None with
           | Some v => if Z.ltb v 4294967295 then Some (Z.to_N v) else None
           | None => None
           end
      else None
  end.

Section Objects.
Context {A : Type}.

Fixpoint obj_get (o : obj A) (k : string) : option A :=
  match o with
  | [] => None
  | (k', v) :: r => if String.eqb k' k then Some v else obj_get r k
  end.

Fixpoint obj_replace (o : obj A) (k : string) (v : A) : obj A :=
  match o with
  | [] => []
  | (k', v') :: r =>
      if String.eqb k' k then (k', v) :: r else (k', v') :: obj_replace r k v
  end.

Fixpoint obj_insert_index (o : obj A) (n : N) (k : string) (v : A) : obj A :=
  match o with
  | [] => [(k, v)]
  | (k', v') :: r =>
      match array_index k' with
      | Some m =>
          if N.ltb m n then (k', v') :: obj_insert_index r n k v
          else (k, v) :: (k', v') :: r
      | None => (k, v) :: (k', v') :: r
      end
  end.

(** Defining or overwriting one property: [o[k] = v]. *)
Definition obj_set (o : obj A) (k : string) (v : A) : obj A :=
  match obj_get o k with
  | Some _ => obj_replace o k v
  | None =>
      match array_index k with
      | Some n => obj_insert_index o n k v
      | None => (o ++ [(k, v)])%list
      end
  end.

(** An object literal [{k1: v1, ..., kn: vn}], and the spread
    [{...base, ...extra}] of [extra] over [base]. *)
Definition obj_assign (base extra : obj A) : obj A :=
  fold_left (fun o kv => obj_set o (fst kv) (snd kv)) extra base.

Definition obj_literal (props : list (string * A)) : obj A :=
  obj_assign [] props.

Definition obj_keys (o : obj A) : list string := map fst o.

End Objects.

(** ** JSON values and [JSON.stringify] *)

Inductive json : Type :=
| JNull
| JBool (b : bool)
| JNumber (z : Z)
| JString (s : string)
| JArray (items : list json)
| JObject (props : list (string * json)).

Definition backslash : ascii := ascii_of_N 92.

Definition hex_lower (n : N) : ascii :=
  if N.ltb n 10 then ascii_of_N (48 + n) else ascii_of_N (97 + (n - 10)).

Definition hex_upper (n : N) : ascii :=
  if N.ltb n 10 then ascii_of_N (48 + n) else ascii_of_N (65 + (n - 10)).

Definition esc (c : ascii) : string := String backslash (String c EmptyString).

(** The escape of one code unit inside a JSON string. *)
Definition json_escape_char (c : ascii) : string :=
  let n := code c in
  if N.eqb n 34 then esc dquote
  else if N.eqb n 92 then esc backslash
  else if N.eqb n 8 then esc "b"%char
  else if N.eqb n 9 then esc "t"%char
  else if N.eqb n 10 then esc "n"%char
  else if N.eqb n 12 then esc "f"%char
  else if N.eqb n 13 then esc "r"%char
  else if N.ltb n 32
       then String backslash
              (String "u"%char
                 (String "0"%char
                    (String "0"%char
                       (String (hex_lower (n / 16))
                          (String (hex_lower (n mod 16)) EmptyString)))))
  else String c EmptyString.

Fixpoint json_escape (s : string) : string :=
  match s with
  | EmptyString => EmptyString
  | String c r => json_escape_char c ++ json_escape r
  end.

Definition json_quote (s : string) : string := DQ ++ json_escape s ++ DQ.

(** [JSON.stringify] without indentation. *)
Fixpoint stringify (v : json) : string :=
  match v with
  | JNull => "null"
  | JBool true => "true"
  | JBool false => "false"
  | JNumber z => string_of_Z z
  | JString s => json_quote s
  | JArray items =>
      "[" ++ join "," (map stringify items) ++ "]"
  | JObject props =>
      "{" ++ join ","
               (map (fun kv => json_quote (fst kv) ++ ":" ++ stringify (snd kv))
                  props) ++ "}"
  end.

(** Truthiness of a value. *)
Definition truthy (v : json) : bool :=
  match v with
  | JNull => false
  | JBool b => b
  | JNumber z => negb (Z.eqb z 0)
  | JString s => truthy_string s
  | JArray _ => true
  | JObject _ => true
  end.

(** [String(v)]: arrays print their elements joined by commas, with
    [null] elements empty; every plain object prints the same text. *)
Fixpoint to_String (v : json) : string :=
  match v with
  | JNull => "null"
  | JBool true => "true"
  | JBool false => "false"
  | JNumber z => string_of_Z z
  | JString s => s
  | JArray items =>
      join ","
        (map (fun x => match x with JNull => EmptyString | _ => to_String x end)
           items)
  | JObject _ => "[object Object]"
  end.

(** ** [URLSearchParams] *)

Definition URLSearchParams : Type := list (string * string).

(** [params.set(name, value)]: the first pair of that name takes the value
    and the later ones go; a new name is appended. *)
Fixpoint usp_set (p : URLSearchParams) (name value : string) : URLSearchParams :=
  match p with
  | [] => [(name, value)]
  | (k, v) :: r =>
      if String.eqb k name
      then (k, value) :: filter (fun kv => negb (String.eqb (fst kv) name)) r
      else (k, v) :: usp_set r name value
  end.

(** The bytes the form-urlencoded serializer leaves as they are:
    ASCII letters and digits, and the four marks [* - . _]. *)
Definition form_safe (n : N) : bool :=
  ((N.leb 48 n && N.leb n 57) || (N.leb 65 n && N.leb n 90)
   || (N.leb 97 n && N.leb n 122)
   || N.eqb n 42 || N.eqb n 45 || N.eqb n 46 || N.eqb n 95)%bool.

Definition percent (n : N) : string :=
  String "%"%char
    (String (hex_upper (n / 16)) (String (hex_upper (n mod 16)) EmptyString)).

(** One code unit, UTF-8 encoded and then percent-encoded. *)
Definition form_encode_char (c : ascii) : string :=
  let n := code c in
  if N.eqb n 32 then "+"
  else if form_safe n then String c EmptyString
  else if N.ltb n 128 then percent n
  else percent (192 + n / 64) ++ percent (128 + n mod 64).

Fixpoint form_encode (s : string) : string :=
  match s with
  | EmptyString => EmptyString
  | String c r => form_encode_char c ++ form_encode r
  end.

(** [params.toString()], which a template literal calls. *)
Definition usp_toString (p : URLSearchParams) : string :=
  join "&" (map (fun kv => form_encode (fst kv) ++ "=" ++ form_encode (snd kv)) p).

(** ** [encodeURIComponent] *)




End Js.

(* ================================================================== *)
(** * The platform: headers, requests, responses and [fetch] *)
(* ================================================================== *)

Module Http.
Import Js.

(** A [Headers] object: the list of its name and value pairs. *)
Definition Headers : Type := list (string * string).

Definition same_name (a b : string) : bool :=
  String.eqb (ascii_lower a) (ascii_lower b).

(** [headers.get(name)]: names match whatever their case, the values of a
    repeated header are joined, and a header that is not there gives
    [null]. *)
Definition Headers_get (h : Headers) (name : string) : option string :=
  match filter (fun kv => same_name (fst kv) name) h with
  | [] => None
  | vs => Some (join ", " (map snd vs))
  end.

(** The inbound request, as far as the worker reads it. *)
Record Request : Type := mkRequest {
  pathname : string;
  req_method : string;
  req_headers : Headers
}.

(** One outbound call: the two arguments of [fetch]. *)
Record FetchCall : Type := mkFetchCall {
  url : string;
  method : option string;
  headers : obj string;
  body : option string
}.

(** The response, as far as the client reads it; [text] is the result of
    [response.text()]. *)
Record Response : Type := mkResponse {
  status : Z;
  resp_headers : Headers;
  text : string
}.

(** [response.ok]. *)
Definition ok (r : Response) : bool :=
  (Z.leb 200 (status r) && Z.leb (status r) 299)%bool.

(** What a successful call hands back: [response.json()], kept as the
    text it parses, or [response.text()]. *)
Inductive Payload : Type :=
| JsonOf (t : string)
| TextOf (t : string).

End Http.

(* ================================================================== *)
(** * Errors *)
(* ================================================================== *)

Module Errors.
Import Js.

(** Modelled from the spec: the error classes of [utils/errors], of which
    the sources only hold the constructor calls.  A missing-credentials
    failure is a plain [Error]; the client raises [ApiError] (message and,
    where given, the HTTP status), [AuthenticationError] and
    [RateLimitError] (message and retry-after). *)
Inductive Error : Type :=
| PlainError (message : string)
| ApiError (message : string) (statusCode : option Z)
| AuthenticationError (message : string)
| RateLimitError (message : string) (retryAfter : jsnum).

Definition message_of (e : Error) : string :=
  match e with
  | PlainError m => m
  | ApiError m _ => m
  | AuthenticationError m => m
  | RateLimitError m _ => m
  end.

End Errors.

(* ================================================================== *)
(** * Asynchronous computations *)
(* ================================================================== *)

Module Async.
Import Js Http Errors.

(** The world a computation runs in: the remote service and the clock
    ([Date.now()], in milliseconds). *)
Record World : Type := mkWorld {
  respond : FetchCall -> Response;
  now_ms : Z
}.

Inductive Outcome (A : Type) : Type :=
| Threw (e : Error)
| Returned (a : A).
Arguments Threw {A} e.
Arguments Returned {A} a.

(** A computation reads the world, extends the log of the calls made so
    far, and throws or returns. *)
Definition Async (A : Type) : Type :=
  World -> list FetchCall -> list FetchCall * Outcome A.

Definition ret {A} (a : A) : Async A :=
  fun _ log => (log, Returned a).

Definition throw {A} (e : Error) : Async A :=
  fun _ log => (log, Threw e).

Definition bind {A B} (m : Async A) (k : A -> Async B) : Async B :=
  fun w log =>
    match m w log with
    | (log', Returned a) => k a w log'
    | (log', Threw e) => (log', Threw e)
    end.

(** [await fetch(url, init)]. *)
Definition fetch (call : FetchCall) : Async Response :=
  fun w log => ((log ++ [call])%list, Returned (respond w call)).

(** [Date.now()]. *)
Definition date_now : Async Z :=
  fun w log => (log, Returned (now_ms w)).

(** A world whose service gives the same response to every call. *)
Definition answering (r : Response) (now : Z) : World :=
  {| respond := fun _ => r; now_ms := now |}.

(** Running a computation from an empty log. *)
Definition run {A} (m : Async A) (w : World) : list FetchCall * Outcome A :=
  m w [].

Definition calls_of {A} (m : Async A) (w : World) : list FetchCall :=
  fst (run m w).

Definition outcome_of {A} (m : Async A) (w : World) : Outcome A :=
  snd (run m w).


End Async.

Notation "x <- c1 ;; c2" := (Async.bind c1 (fun x => c2))
  (at level 61, c1 at next level, right associativity).

(* ================================================================== *)
(** * [types/env.ts]: tenant credentials *)
(* ================================================================== *)

Module Env.
Import Js Http Errors.

Record TenantCredentials : Type := mkCredentials {
  username : string;
  secret : string;
  projectId : string;
  projectToken : option string;
  euResident : option bool
}.

(** [headers.get(name)?.toLowerCase() === 'true']. *)
Definition is_true_flag (o : option string) : bool :=
  match o with
  | Some v => String.eqb (toLowerCase v) "true"
  | None => false
  end.

Definition parseTenantCredentials (request : Request) : TenantCredentials :=
  let headers := req_headers request in
  {| username := or_else (Headers_get headers "X-Mixpanel-Service-Account-Username") EmptyString;
     secret := or_else (Headers_get headers "X-Mixpanel-Service-Account-Secret") EmptyString;
     projectId := or_else (Headers_get headers "X-Mixpanel-Project-Id") EmptyString;
     projectToken := or_undefined (Headers_get headers "X-Mixpanel-Project-Token");
     euResident := Some (is_true_flag (Headers_get headers "X-Mixpanel-EU-Resident")) |}.

(** [validateCredentials] returns nothing or throws: [None] is the normal
    return, [Some e] the error thrown. *)
Definition validateCredentials (credentials : TenantCredentials) : option Error :=
  if (negb (truthy_string (username credentials))
      || negb (truthy_string (secret credentials)))%bool
  then Some (PlainError
    "Missing credentials. Provide X-Mixpanel-Service-Account-Username and X-Mixpanel-Service-Account-Secret headers.")
  else if negb (truthy_string (projectId credentials))
  then Some (PlainError "Missing project ID. Provide X-Mixpanel-Project-Id header.")
  else None.

(** ** Environment configuration *)

(** The worker's environment: the three variables of [wrangler.jsonc],
    each a string when it is set, and the three optional bindings, of
    which only the presence matters here. *)
Record WorkerEnv : Type := mkWorkerEnv {
  CHARACTER_LIMIT : option string;
  DEFAULT_PAGE_SIZE : option string;
  MAX_PAGE_SIZE : option string;
  CACHE_KV : bool;
  MCP_SESSIONS : bool;
  AI : bool
}.

(** [keyof Env]. *)
Inductive EnvKey : Type :=
| KCharacterLimit | KDefaultPageSize | KMaxPageSize
| KCacheKv | KMcpSessions | KAi.

(** What [env[key]] holds: a string, a binding object, or nothing. *)
Inductive EnvValue : Type :=
| EnvString (v : string)
| EnvBinding
| EnvUndefined.

Definition of_var (o : option string) : EnvValue :=
  match o with
  | Some v => EnvString v
  | None => EnvUndefined
  end.

Definition of_binding (b : bool) : EnvValue :=
  if b then EnvBinding else EnvUndefined.

Definition env_get (env : WorkerEnv) (key : EnvKey) : EnvValue :=
  match key with
  | KCharacterLimit => of_var (CHARACTER_LIMIT env)
  | KDefaultPageSize => of_var (DEFAULT_PAGE_SIZE env)
  | KMaxPageSize => of_var (MAX_PAGE_SIZE env)
  | KCacheKv => of_binding (CACHE_KV env)
  | KMcpSessions => of_binding (MCP_SESSIONS env)
  | KAi => of_binding (AI env)
  end.

Definition getEnvNumber (env : WorkerEnv) (key : EnvKey) (defaultValue : jsnum)
  : jsnum :=
  match env_get env key with
  | EnvString value =>
      let parsed := parseInt10 value in
      match parsed with
      | JNaN => defaultValue
      | JNum _ => parsed
      end
  | _ => defaultValue
  end.

Definition getCharacterLimit (env : WorkerEnv) : jsnum :=
  getEnvNumber env KCharacterLimit (JNum 50000).

Definition getDefaultPageSize (env : WorkerEnv) : jsnum :=
  getEnvNumber env KDefaultPageSize (JNum 20).

Definition getMaxPageSize (env : WorkerEnv) : jsnum :=
  getEnvNumber env KMaxPageSize (JNum 100).

End Env.

(* ================================================================== *)
(** * [client.ts]: the Mixpanel client *)
(* ================================================================== *)

Module Client.
Import Js Http Errors Async Env.

(** ** Base URLs *)

Definition DATA_API_URL : string := "https://data.mixpanel.com/api/2.0".
Definition MIXPANEL_API_URL : string := "https://mixpanel.com/api/2.0".
Definition EU_DATA_API_URL : string := "https://data-eu.mixpanel.com/api/2.0".
Definition EU_MIXPANEL_API_URL : string := "https://eu.mixpanel.com/api/2.0".
Definition INGESTION_API_URL : string := "https://api.mixpanel.com".
Definition EU_INGESTION_API_URL : string := "https://api-eu.mixpanel.com".
Definition APP_API_URL : string := "https://mixpanel.com/api/app".
Definition EU_APP_API_URL : string := "https://eu.mixpanel.com/api/app".

(** Truthiness of the optional residency flag. *)
Definition flag_set (o : option bool) : bool :=
  match o with
  | Some b => b
  | None => false
  end.

(** The string a nullable string holds once a guard has found it truthy. *)
Definition narrowed (o : option string) : string :=
  match o with
  | Some s => s
  | None => EmptyString
  end.

Section WithCredentials.
Variable credentials : TenantCredentials.

(** ** HTTP request helpers *)

Definition getAuthHeaders : obj string :=
  let encoded := btoa (username credentials ++ ":" ++ secret credentials) in
  obj_literal
    [ ("Authorization", "Basic " ++ encoded);
      ("Content-Type", "application/json");
      ("Accept", "application/json") ].

Definition getDataApiUrl : string :=
  if flag_set (euResident credentials) then EU_DATA_API_URL else DATA_API_URL.

Definition getMixpanelApiUrl : string :=
  if flag_set (euResident credentials) then EU_MIXPANEL_API_URL else MIXPANEL_API_URL.

Definition getIngestionApiUrl : string :=
  if flag_set (euResident credentials) then EU_INGESTION_API_URL else INGESTION_API_URL.

Definition getAppApiUrl : string :=
  if flag_set (euResident credentials) then EU_APP_API_URL else APP_API_URL.

(** The [RequestInit] a caller of [request] passes. *)
Record RequestInit : Type := mkInit {
  init_method : option string;
  init_headers : option (obj string);
  init_body : option string
}.

Definition no_options : RequestInit :=
  {| init_method := None; init_headers := None; init_body := None |}.

(** The call [request] makes: [options] with the authorization headers
    under its own. *)
Definition request_call (baseUrl endpoint : string) (options : RequestInit)
  : FetchCall :=
  let url := baseUrl ++ endpoint in
  {| url := url;
     method := init_method options;
     headers := obj_assign getAuthHeaders
                  (match init_headers options with
                   | Some h => h
                   | None => []
                   end);
     body := init_body options |}.

Definition request (baseUrl endpoint : string) (options : RequestInit)
  : Async Payload :=
  response <- fetch (request_call baseUrl endpoint options) ;;
  if Z.eqb (status response) 429 then
    let retryAfter := Headers_get (resp_headers response) "Retry-After" in
    throw (RateLimitError "Rate limit exceeded"
             (if truthy_opt retryAfter
              then parseInt10 (narrowed retryAfter)
              else JNum 60))
  else if (Z.eqb (status response) 401 || Z.eqb (status response) 403)%bool then
    throw (AuthenticationError "Invalid credentials")
  else if negb (ok response) then
    let errorText := text response in
    throw (ApiError
             ("API error: " ++ string_of_Z (status response) ++ " - " ++ errorText)
             (Some (status response)))
  else
    let contentType := Headers_get (resp_headers response) "content-type" in
    if match contentType with
       | Some ct => includes ct "application/json"
       | None => false
       end
    then ret (JsonOf (text response))
    else ret (TextOf (text response)).

Definition requestIngestion (endpoint : string) (data : json)
  (useProjectToken : bool) : Async Payload :=
  let url := getIngestionApiUrl ++ endpoint in
  let headers0 : obj string :=
    obj_literal [ ("Content-Type", "application/json");
                  ("Accept", "application/json") ] in
  let headers1 :=
    if negb useProjectToken
    then obj_set headers0 "Authorization"
           ("Basic " ++ btoa (username credentials ++ ":" ++ secret credentials))
    else headers0 in
  response <- fetch
    {| url := url;
       method := Some "POST";
       headers := headers1;
       body := Some (stringify data) |} ;;
  if Z.eqb (status response) 429 then
    throw (RateLimitError "Rate limit exceeded" (JNum 60))
  else if negb (ok response) then
    let errorText := text response in
    throw (ApiError
             ("Ingestion API error: " ++ string_of_Z (status response)
                ++ " - " ++ errorText)
             (Some (status response)))
  else ret (JsonOf (text response)).

(** ** Query API: insights *)

Record InsightsParams : Type := mkInsightsParams {
  ins_fromDate : string;
  ins_toDate : string;
  ins_event : option string;
  ins_groupBy : option (list string);
  ins_where : option string;
  ins_interval : option string
}.

Definition set_if (cond : bool) (name value : string) (p : URLSearchParams)
  : URLSearchParams :=
  if cond then usp_set p name value else p.

Definition queryInsights_params (params : InsightsParams) : URLSearchParams :=
  let q0 : URLSearchParams :=
    [ ("project_id", projectId credentials);
      ("from_date", ins_fromDate params);
      ("to_date", ins_toDate params) ] in
  let q1 := set_if (truthy_opt (ins_event params)) "event"
              (stringify (JArray [JString (narrowed (ins_event params))])) q0 in
  let q2 := set_if (truthy_opt (ins_interval params)) "interval"
              (narrowed (ins_interval params)) q1 in
  let q3 := set_if (truthy_opt (ins_where params)) "where"
              (narrowed (ins_where params)) q2 in
  match ins_groupBy params with
  | Some g => usp_set q3 "on" (stringify (JArray (map JString g)))
  | None => q3
  end.

Definition queryInsights (params : InsightsParams) : Async Payload :=
  let queryParams := queryInsights_params params in
  request getMixpanelApiUrl ("/insights?" ++ usp_toString queryParams) no_options.

(** ** Data Export API *)

Record ExportParams : Type := mkExportParams {
  exp_fromDate : string;
  exp_toDate : string;
  exp_event : option (list string);
  exp_where : option string;
  exp_limit : option Z
}.

(** The lines of the newline-delimited export:
    [text.trim().split(NL).filter(Boolean)].  Each line is then read by
    [JSON.parse], which the embedding leaves to the caller. *)
Definition export_lines (t : string) : list string :=
  filter truthy_string (split_on newline (trim t)).

Definition exportEvents (params : ExportParams) : Async (list string) :=
  let q0 : URLSearchParams :=
    [ ("project_id", projectId credentials);
      ("from_date", exp_fromDate params);
      ("to_date", exp_toDate params) ] in
  let q1 := match exp_event params with
            | Some ev => usp_set q0 "event" (stringify (JArray (map JString ev)))
            | None => q0
            end in
  let q2 := set_if (truthy_opt (exp_where params)) "where"
              (narrowed (exp_where params)) q1 in
  let q3 := match exp_limit params with
            | Some n => set_if (negb (Z.eqb n 0)) "limit" (string_of_Z n) q2
            | None => q2
            end in
  response <- fetch
    {| url := getDataApiUrl ++ "/export?" ++ usp_toString q3;
       method := None;
       headers := getAuthHeaders;
       body := None |} ;;
  if Z.eqb (status response) 429 then
    throw (RateLimitError "Rate limit exceeded" (JNum 60))
  else if negb (ok response) then
    let errorText := text response in
    throw (ApiError
             ("Export failed: " ++ string_of_Z (status response) ++ " - " ++ errorText)
             (Some (status response)))
  else ret (export_lines (text response)).

(** ** Ingestion API: events *)

(** The result [{ status: response.ok ? 1 : 0 }]. *)
Record StatusResult : Type := mkStatus { result_status : Z }.

Definition status_of (response : Response) : StatusResult :=
  {| result_status := if ok response then 1 else 0 |}.

(** The call every direct ingestion operation makes: a POST of a JSON
    body with a single [Content-Type] header. *)
Definition post_json (endpoint : string) (payload : json) : FetchCall :=
  {| url := getIngestionApiUrl ++ endpoint;
     method := Some "POST";
     headers := obj_literal [ ("Content-Type", "application/json") ];
     body := Some (stringify payload) |}.

Record TrackEventParams : Type := mkTrackEventParams {
  te_event : string;
  te_distinctId : string;
  te_properties : option (obj json);
  te_time : option Z
}.

(** [t || Math.floor(Date.now() / 1000)] for an optional number [t]. *)
Definition time_or_now (t : option Z) (now : Z) : Z :=
  match t with
  | Some z => if Z.eqb z 0 then now / 1000 else z
  | None => now / 1000
  end.

Definition trackEvent (params : TrackEventParams) : Async StatusResult :=
  let token := projectToken credentials in
  if negb (truthy_opt token) then
    throw (ApiError
      "Project token required for tracking events. Set X-Mixpanel-Project-Token header."
      None)
  else
    now <- date_now ;;
    let data :=
      JArray
        [ JObject (obj_literal
            [ ("event", JString (te_event params));
              ("properties",
               JObject (obj_assign
                 (obj_literal
                    [ ("distinct_id", JString (te_distinctId params));
                      ("token", JString (narrowed token));
                      ("time", JNumber (time_or_now (te_time params) now)) ])
                 (match te_properties params with
                  | Some props => props
                  | None => []
                  end))) ]) ] in
    response <- fetch (post_json "/track" data) ;;
    ret (status_of response).

(** An event of a batch: its name and its property object. *)
Record EventRecord : Type := mkEvent {
  ev_event : string;
  ev_properties : obj json
}.

(** [e.properties.time || Math.floor(Date.now() / 1000)]; the events of
    one batch are built within one reading [now] of the clock. *)
Definition prop_time_or_now (props : obj json) (now : Z) : json :=
  match obj_get props "time" with
  | Some v => if truthy v then v else JNumber (now / 1000)
  | None => JNumber (now / 1000)
  end.

Definition trackEvents (events : list EventRecord) : Async StatusResult :=
  let token := projectToken credentials in
  if negb (truthy_opt token) then
    throw (ApiError
      "Project token required for tracking events. Set X-Mixpanel-Project-Token header."
      None)
  else
    now <- date_now ;;
    let data :=
      JArray (map (fun e =>
        JObject (obj_literal
          [ ("event", JString (ev_event e));
            ("properties",
             JObject (obj_assign (ev_properties e)
               [ ("token", JString (narrowed token));
                 ("time", prop_time_or_now (ev_properties e) now) ])) ]))
        events) in
    response <- fetch (post_json "/track" data) ;;
    ret (status_of response).

Definition importEvents (events : list EventRecord) : Async Payload :=
  let token := projectToken credentials in
  if negb (truthy_opt token) then
    throw (ApiError
      "Project token required for importing events. Set X-Mixpanel-Project-Token header."
      None)
  else
    let data :=
      JArray (map (fun e =>
        JObject (obj_literal
          [ ("event", JString (ev_event e));
            ("properties",
             JObject (obj_assign (ev_properties e)
               [ ("token", JString (narrowed token)) ])) ]))
        events) in
    requestIngestion "/import" data true.

(** ** Ingestion API: user profiles *)

Definition engageRequest (operation distinctId : string) (data : json)
  : Async StatusResult :=
  let token := projectToken credentials in
  if negb (truthy_opt token) then
    throw (ApiError
      "Project token required for profile operations. Set X-Mixpanel-Project-Token header."
      None)
  else
    let payload :=
      JArray
        [ JObject (obj_literal
            [ ("$token", JString (narrowed token));
              ("$distinct_id", JString distinctId);
              (operation, data) ]) ] in
    response <- fetch (post_json "/engage" payload) ;;
    ret (status_of response).

Definition setProfileProperties (distinctId : string) (properties : obj json) :=
  engageRequest "$set" distinctId (JObject properties).

Definition setProfilePropertiesOnce (distinctId : string) (properties : obj json) :=
  engageRequest "$set_once" distinctId (JObject properties).

Definition incrementProfileProperties (distinctId : string) (properties : obj json) :=
  engageRequest "$add" distinctId (JObject properties).

Definition appendToProfileList (distinctId property : string) (values : list json) :=
  engageRequest "$append" distinctId
    (JObject (obj_literal [ (property, JArray values) ])).

Definition removeFromProfileList (distinctId property : string) (values : list json) :=
  engageRequest "$remove" distinctId
    (JObject (obj_literal [ (property, JArray values) ])).

Definition unionToProfileList (distinctId : string) (properties : obj json) :=
  engageRequest "$union" distinctId (JObject properties).

Definition unsetProfileProperties (distinctId : string) (properties : list string) :=
  engageRequest "$unset" distinctId (JArray (map JString properties)).

Definition deleteProfile (distinctId : string) : Async StatusResult :=
  let token := projectToken credentials in
  if negb (truthy_opt token) then
    throw (ApiError
      "Project token required for profile operations. Set X-Mixpanel-Project-Token header."
      None)
  else
    let payload :=
      JArray
        [ JObject (obj_literal
            [ ("$token", JString (narrowed token));
              ("$distinct_id", JString distinctId);
              ("$delete", JString EmptyString) ]) ] in
    response <- fetch (post_json "/engage" payload) ;;
    ret (status_of response).

(** ** Ingestion API: group profiles *)

Definition groupRequest (operation groupKey groupId : string) (data : json)
  : Async StatusResult :=
  let token := projectToken credentials in
  if negb (truthy_opt token) then
    throw (ApiError
      "Project token required for group operations. Set X-Mixpanel-Project-Token header."
      None)
  else
    let payload :=
      JArray
        [ JObject (obj_literal
            [ ("$token", JString (narrowed token));
              ("$group_key", JString groupKey);
              ("$group_id", JString groupId);
              (operation, data) ]) ] in
    response <- fetch (post_json "/groups" payload) ;;
    ret (status_of response).

Definition setGroupProperties (groupKey groupId : string) (properties : obj json) :=
  groupRequest "$set" groupKey groupId (JObject properties).

Definition setGroupPropertiesOnce (groupKey groupId : string) (properties : obj json) :=
  groupRequest "$set_once" groupKey groupId (JObject properties).

Definition unsetGroupProperties (groupKey groupId : string) (properties : list string) :=
  groupRequest "$unset" groupKey groupId (JArray (map JString properties)).

Definition deleteGroup (groupKey groupId : string) : Async StatusResult :=
  let token := projectToken credentials in
  if negb (truthy_opt token) then
    throw (ApiError
      "Project token required for group operations. Set X-Mixpanel-Project-Token header."
      None)
  else
    let payload :=
      JArray
        [ JObject (obj_literal
            [ ("$token", JString (narrowed token));
              ("$group_key", JString groupKey);
              ("$group_id", JString groupId);
              ("$delete", JString EmptyString) ]) ] in
    response <- fetch (post_json "/groups" payload) ;;
    ret (status_of response).

(** ** Ingestion API: identity management *)

Definition createIdentity (distinctId anonId : string) : Async StatusResult :=
  let token := projectToken credentials in
  if negb (truthy_opt token) then
    throw (ApiError
      "Project token required for identity operations. Set X-Mixpanel-Project-Token header."
      None)
  else
    let payload :=
      JObject (obj_literal
        [ ("event", JString "$identify");
          ("properties",
           JObject (obj_literal
             [ ("$identified_id", JString distinctId);
               ("$anon_id", JString anonId);
               ("token", JString (narrowed token)) ])) ]) in
    response <- fetch (post_json "/track" (JArray [payload])) ;;
    ret (status_of response).

Definition createAlias (distinctId alias : string) : Async StatusResult :=
  let token := projectToken credentials in
  if negb (truthy_opt token) then
    throw (ApiError
      "Project token required for alias operations. Set X-Mixpanel-Project-Token header."
      None)
  else
    let payload :=
      JObject (obj_literal
        [ ("event", JString "$create_alias");
          ("properties",
           JObject (obj_literal
             [ ("distinct_id", JString distinctId);
               ("alias", JString alias);
               ("token", JString (narrowed token)) ])) ]) in
    response <- fetch (post_json "/track" (JArray [payload])) ;;
    ret (status_of response).

Definition mergeIdentities (distinctId1 distinctId2 : string) : Async StatusResult :=
  let token := projectToken credentials in
  if negb (truthy_opt token) then
    throw (ApiError
      "Project token required for merge operations. Set X-Mixpanel-Project-Token header."
      None)
  else
    let payload :=
      JObject (obj_literal
        [ ("event", JString "$merge");
          ("properties",
           JObject (obj_literal
             [ ("$distinct_ids", JArray [JString distinctId1; JString distinctId2]);
               ("token", JString (narrowed token)) ])) ]) in
    response <- fetch (post_json "/track" (JArray [payload])) ;;
    ret (status_of response).

(** ** Management API: lookup tables *)

Definition listLookupTables : Async Payload :=
  request getIngestionApiUrl
    ("/lookup_tables?project_id=" ++ projectId credentials) no_options.

(** One cell of the CSV text: the value of column [h] in [row]. *)
Definition csv_cell (row : obj json) (h : string) : string :=
  match obj_get row h with
  | None => EmptyString
  | Some JNull => EmptyString
  | Some val =>
      let str := to_String val in
      if (includes_char str comma || includes_char str dquote
          || includes_char str newline)%bool
      then DQ ++ double_quotes str ++ DQ
      else str
  end.

(** The CSV text of a table whose first row is [row0]: the header line,
    then one line per row, [row0] included. *)
Definition csv_content (row0 : obj json) (data : list (obj json)) : string :=
  let headers := obj_keys row0 in
  let csvRows :=
    (join "," headers
       :: map (fun row => join "," (map (csv_cell row) headers)) data)%list in
  join NL csvRows.

Definition createOrReplaceLookupTable (tableName : string)
  (data : list (obj json)) : Async string :=
  match data with
  | [] => throw (ApiError "Lookup table data cannot be empty" None)
  | row0 :: _ =>
      let csvContent := csv_content row0 data in
      response <- fetch
        {| url := getIngestionApiUrl ++ "/lookup_tables/" ++ tableName
                    ++ "?project_id=" ++ projectId credentials;
           method := Some "PUT";
           headers := obj_assign getAuthHeaders [ ("Content-Type", "text/csv") ];
           body := Some csvContent |} ;;
      if negb (ok response) then
        let errorText := text response in
        throw (ApiError ("Failed to create lookup table: " ++ errorText)
                 (Some (status response)))
      else ret "ok"
  end.

(** ** GDPR API *)

Record RetrievalOptions : Type := mkRetrievalOptions {
  opt_dataType : option string;
  opt_completionEmail : option string
}.

Definition createDataRetrieval (distinctIds : list string)
  (options : option RetrievalOptions) : Async Payload :=
  let body0 : obj json :=
    obj_literal [ ("distinct_ids", JArray (map JString distinctIds)) ] in
  let dataType := match options with Some o => opt_dataType o | None => None end in
  let completionEmail :=
    match options with Some o => opt_completionEmail o | None => None end in
  let body1 :=
    if truthy_opt dataType
    then obj_set body0 "data_type" (JString (narrowed dataType))
    else body0 in
  let body2 :=
    if truthy_opt completionEmail
    then obj_set body1 "completion_email" (JString (narrowed completionEmail))
    else body1 in
  request getAppApiUrl
    ("/data-retrievals/v3.0?token=" ++ template_opt (projectToken credentials))
    {| init_method := Some "POST";
       init_headers := None;
       init_body := Some (stringify (JObject body2)) |}.

Definition getDataRetrievalStatus (requestId : string) : Async Payload :=
  request getAppApiUrl
    ("/data-retrievals/v3.0/" ++ requestId ++ "?token="
       ++ template_opt (projectToken credentials))
    no_options.

Definition createDataDeletion (distinctIds : list string) : Async Payload :=
  request getAppApiUrl
    ("/data-deletions/v3.0?token=" ++ template_opt (projectToken credentials))
    {| init_method := Some "POST";
       init_headers := None;
       init_body :=
         Some (stringify
                 (JObject (obj_literal
                    [ ("distinct_ids", JArray (map JString distinctIds)) ]))) |}.

Definition getDataDeletionStatus (requestId : string) : Async Payload :=
  request getAppApiUrl
    ("/data-deletions/v3.0/" ++ requestId ++ "?token="
       ++ template_opt (projectToken credentials))
    no_options.

(** The result [{ success: true }] is the unit value. *)
Definition cancelDataDeletion (requestId : string) : Async unit :=
  _ <- request getAppApiUrl
         ("/data-deletions/v3.0/" ++ requestId ++ "?token="
            ++ template_opt (projectToken credentials))
         {| init_method := Some "DELETE";
            init_headers := None;
            init_body := None |} ;;
  ret tt.

End WithCredentials.

(** ** The operations that need the project token *)

(** The ingestion-class methods of the client interface, each with its
    arguments: event tracking, profile and group mutation, identity
    linking, and the GDPR requests. *)
Inductive IngestionOp : Type :=
| OpTrackEvent (params : TrackEventParams)
| OpTrackEvents (events : list EventRecord)
| OpImportEvents (events : list EventRecord)
| OpSetProfileProperties (distinctId : string) (properties : obj json)
| OpSetProfilePropertiesOnce (distinctId : string) (properties : obj json)
| OpIncrementProfileProperties (distinctId : string) (properties : obj json)
| OpAppendToProfileList (distinctId property : string) (values : list json)
| OpRemoveFromProfileList (distinctId property : string) (values : list json)
| OpUnionToProfileList (distinctId : string) (properties : obj json)
| OpUnsetProfileProperties (distinctId : string) (properties : list string)
| OpDeleteProfile (distinctId : string)
| OpSetGroupProperties (groupKey groupId : string) (properties : obj json)
| OpSetGroupPropertiesOnce (groupKey groupId : string) (properties : obj json)
| OpUnsetGroupProperties (groupKey groupId : string) (properties : list string)
| OpDeleteGroup (groupKey groupId : string)
| OpCreateIdentity (distinctId anonId : string)
| OpCreateAlias (distinctId alias : string)
| OpMergeIdentities (distinctId1 distinctId2 : string)
| OpCreateDataRetrieval (distinctIds : list string) (options : option RetrievalOptions)
| OpGetDataRetrievalStatus (requestId : string)
| OpCreateDataDeletion (distinctIds : list string)
| OpGetDataDeletionStatus (requestId : string)
| OpCancelDataDeletion (requestId : string).

(** What an operation returns, whatever its result type. *)
Inductive OpResult : Type :=
| ResStatus (r : StatusResult)
| ResPayload (p : Payload)
| ResSuccess.

Definition lift {A} (f : A -> OpResult) (m : Async A) : Async OpResult :=
  a <- m ;; ret (f a).

(** Calling one method on the client built from [credentials]. *)
Definition invoke (credentials : TenantCredentials) (op : IngestionOp)
  : Async OpResult :=
  match op with
  | OpTrackEvent p => lift ResStatus (trackEvent credentials p)
  | OpTrackEvents es => lift ResStatus (trackEvents credentials es)
  | OpImportEvents es => lift ResPayload (importEvents credentials es)
  | OpSetProfileProperties d p => lift ResStatus (setProfileProperties credentials d p)
  | OpSetProfilePropertiesOnce d p =>
      lift ResStatus (setProfilePropertiesOnce credentials d p)
  | OpIncrementProfileProperties d p =>
      lift ResStatus (incrementProfileProperties credentials d p)
  | OpAppendToProfileList d p v => lift ResStatus (appendToProfileList credentials d p v)
  | OpRemoveFromProfileList d p v =>
      lift ResStatus (removeFromProfileList credentials d p v)
  | OpUnionToProfileList d p => lift ResStatus (unionToProfileList credentials d p)
  | OpUnsetProfileProperties d p => lift ResStatus (unsetProfileProperties credentials d p)
  | OpDeleteProfile d => lift ResStatus (deleteProfile credentials d)
  | OpSetGroupProperties k g p => lift ResStatus (setGroupProperties credentials k g p)
  | OpSetGroupPropertiesOnce k g p =>
      lift ResStatus (setGroupPropertiesOnce credentials k g p)
  | OpUnsetGroupProperties k g p => lift ResStatus (unsetGroupProperties credentials k g p)
  | OpDeleteGroup k g => lift ResStatus (deleteGroup credentials k g)
  | OpCreateIdentity d a => lift ResStatus (createIdentity credentials d a)
  | OpCreateAlias d a => lift ResStatus (createAlias credentials d a)
  | OpMergeIdentities a b => lift ResStatus (mergeIdentities credentials a b)
  | OpCreateDataRetrieval ids o => lift ResPayload (createDataRetrieval credentials ids o)
  | OpGetDataRetrievalStatus r => lift ResPayload (getDataRetrievalStatus credentials r)
  | OpCreateDataDeletion ids => lift ResPayload (createDataDeletion credentials ids)
  | OpGetDataDeletionStatus r => lift ResPayload (getDataDeletionStatus credentials r)
  | OpCancelDataDeletion r => lift (fun _ => ResSuccess) (cancelDataDeletion credentials r)
  end.

(** The GDPR requests among them. *)
Definition is_gdpr (op : IngestionOp) : bool :=
  match op with
  | OpCreateDataRetrieval _ _ | OpGetDataRetrievalStatus _
  | OpCreateDataDeletion _ | OpGetDataDeletionStatus _
  | OpCancelDataDeletion _ => true
  | _ => false
  end.

(** ** The other operations routed through [request] *)

(** [params.set(name, String(n))] under the test [if (n)] for an optional
    number, and [n || d]. *)
Definition set_number (o : option Z) (name : string) (p : URLSearchParams)
  : URLSearchParams :=
  match o with
  | Some n => set_if (negb (Z.eqb n 0)) name (string_of_Z n) p
  | None => p
  end.

Definition number_or (o : option Z) (d : Z) : Z :=
  match o with
  | Some n => if Z.eqb n 0 then d else n
  | None => d
  end.

Definition set_string (o : option string) (name : string) (p : URLSearchParams)
  : URLSearchParams :=
  set_if (truthy_opt o) name (narrowed o) p.

Record SegmentationParams : Type := mkSegmentationParams {
  seg_event : string;
  seg_fromDate : string;
  seg_toDate : string;
  seg_type : option string;
  seg_unit : option string;
  seg_where : option string;
  seg_on : option string
}.

(** The parameters of the three segmentation queries on a property. *)
Record SegmentationOnParams : Type := mkSegmentationOnParams {
  sgo_event : string;
  sgo_fromDate : string;
  sgo_toDate : string;
  sgo_on : string;
  sgo_type : option string;
  sgo_unit : option string;
  sgo_where : option string;
  sgo_buckets : option Z
}.

Record FunnelParams : Type := mkFunnelParams {
  fun_fromDate : string;
  fun_toDate : string;
  fun_interval : option string;
  fun_length : option Z;
  fun_lengthUnit : option string
}.

Record RetentionParams : Type := mkRetentionParams {
  ret_fromDate : string;
  ret_toDate : string;
  ret_bornEvent : option string;
  ret_event : option string;
  ret_retentionType : option string;
  ret_interval : option Z;
  ret_intervalCount : option Z;
  ret_unit : option string
}.

Record FrequencyParams : Type := mkFrequencyParams {
  frq_fromDate : string;
  frq_toDate : string;
  frq_event : string;
  frq_where : option string;
  frq_on : option string
}.

Record ActivityParams : Type := mkActivityParams {
  act_limit : option Z;
  act_from : option Z;
  act_to : option Z
}.

Section MoreOperations.
Variable credentials : TenantCredentials.

Definition querySegmentation_params (params : SegmentationParams)
  : URLSearchParams :=
  let q0 : URLSearchParams :=
    [ ("project_id", projectId credentials);
      ("event", seg_event params);
      ("from_date", seg_fromDate params);
      ("to_date", seg_toDate params) ] in
  set_string (seg_on params) "on"
    (set_string (seg_where params) "where"
       (set_string (seg_unit params) "unit"
          (set_string (seg_type params) "type" q0))).

Definition querySegmentation (params : SegmentationParams) : Async Payload :=
  request credentials (getMixpanelApiUrl credentials)
    ("/segmentation?" ++ usp_toString (querySegmentation_params params))
    no_options.

Definition segmentation_on_base (params : SegmentationOnParams)
  : URLSearchParams :=
  [ ("project_id", projectId credentials);
    ("event", sgo_event params);
    ("from_date", sgo_fromDate params);
    ("to_date", sgo_toDate params);
    ("on", sgo_on params) ].

Definition querySegmentationNumeric_params (params : SegmentationOnParams)
  : URLSearchParams :=
  set_number (sgo_buckets params) "buckets"
    (set_string (sgo_where params) "where"
       (set_string (sgo_unit params) "unit"
          (set_string (sgo_type params) "type" (segmentation_on_base params)))).

Definition querySegmentationNumeric (params : SegmentationOnParams)
  : Async Payload :=
  request credentials (getMixpanelApiUrl credentials)
    ("/segmentation/numeric?"
       ++ usp_toString (querySegmentationNumeric_params params))
    no_options.

(** The sum and the average take no type and no buckets. *)
Definition querySegmentationSum_params (params : SegmentationOnParams)
  : URLSearchParams :=
  set_string (sgo_where params) "where"
    (set_string (sgo_unit params) "unit" (segmentation_on_base params)).

Definition querySegmentationSum (params : SegmentationOnParams)
  : Async Payload :=
  request credentials (getMixpanelApiUrl credentials)
    ("/segmentation/sum?" ++ usp_toString (querySegmentationSum_params params))
    no_options.

Definition querySegmentationAverage (params : SegmentationOnParams)
  : Async Payload :=
  request credentials (getMixpanelApiUrl credentials)
    ("/segmentation/average?"
       ++ usp_toString (querySegmentationSum_params params))
    no_options.

Definition getFunnel_params (funnelId : Z) (params : FunnelParams)
  : URLSearchParams :=
  let q0 : URLSearchParams :=
    [ ("project_id", projectId credentials);
      ("funnel_id", string_of_Z funnelId);
      ("from_date", fun_fromDate params);
      ("to_date", fun_toDate params) ] in
  set_string (fun_lengthUnit params) "length_unit"
    (set_number (fun_length params) "length"
       (set_string (fun_interval params) "interval" q0)).

Definition getFunnel (funnelId : Z) (params : FunnelParams) : Async Payload :=
  request credentials (getMixpanelApiUrl credentials)
    ("/funnels?" ++ usp_toString (getFunnel_params funnelId params)) no_options.

Definition listFunnels_params : URLSearchParams :=
  [ ("project_id", projectId credentials) ].

Definition listFunnels : Async Payload :=
  request credentials (getMixpanelApiUrl credentials)
    ("/funnels/list?" ++ usp_toString listFunnels_params) no_options.

Definition getRetention_params (params : RetentionParams) : URLSearchParams :=
  let q0 : URLSearchParams :=
    [ ("project_id", projectId credentials);
      ("from_date", ret_fromDate params);
      ("to_date", ret_toDate params) ] in
  set_string (ret_unit params) "unit"
    (set_number (ret_intervalCount params) "interval_count"
       (set_number (ret_interval params) "interval"
          (set_string (ret_retentionType params) "retention_type"
             (set_string (ret_event params) "event"
                (set_string (ret_bornEvent params) "born_event" q0))))).

Definition getRetention (params : RetentionParams) : Async Payload :=
  request credentials (getMixpanelApiUrl credentials)
    ("/retention?" ++ usp_toString (getRetention_params params)) no_options.

Definition getFrequency_params (params : FrequencyParams) : URLSearchParams :=
  let q0 : URLSearchParams :=
    [ ("project_id", projectId credentials);
      ("from_date", frq_fromDate params);
      ("to_date", frq_toDate params);
      ("event", frq_event params) ] in
  set_string (frq_on params) "on" (set_string (frq_where params) "where" q0).

Definition getFrequency (params : FrequencyParams) : Async Payload :=
  request credentials (getMixpanelApiUrl credentials)
    ("/retention/frequency?" ++ usp_toString (getFrequency_params params))
    no_options.

Definition getProfileActivity_params (distinctId : string)
  (params : option ActivityParams) : URLSearchParams :=
  let q0 : URLSearchParams :=
    [ ("project_id", projectId credentials);
      ("distinct_id", distinctId) ] in
  let limit := match params with Some p => act_limit p | None => None end in
  let from := match params with Some p => act_from p | None => None end in
  let to := match params with Some p => act_to p | None => None end in
  set_number to "to" (set_number from "from" (set_number limit "limit" q0)).

Definition getProfileActivity (distinctId : string)
  (params : option ActivityParams) : Async Payload :=
  request credentials (getMixpanelApiUrl credentials)
    ("/engage/activity?"
       ++ usp_toString (getProfileActivity_params distinctId params))
    no_options.

Definition getEventNames_params (type : string) (limit : option Z)
  : URLSearchParams :=
  [ ("project_id", projectId credentials);
    ("type", type);
    ("limit", string_of_Z (number_or limit 255)) ].

Definition getEventNames (type : string) (limit : option Z) : Async Payload :=
  request credentials (getMixpanelApiUrl credentials)
    ("/events/names?" ++ usp_toString (getEventNames_params type limit))
    no_options.

Definition getEventProperties_params (eventName : string) : URLSearchParams :=
  [ ("project_id", projectId credentials);
    ("event", eventName) ].

Definition getEventProperties (eventName : string) : Async Payload :=
  request credentials (getMixpanelApiUrl credentials)
    ("/events/properties/top?" ++ usp_toString (getEventProperties_params eventName))
    no_options.

Definition getPropertyValues_params (event property : string)
  (limit : option Z) : URLSearchParams :=
  [ ("project_id", projectId credentials);
    ("event", event);
    ("name", property);
    ("limit", string_of_Z (number_or limit 100)) ].

Definition getPropertyValues (event property : string) (limit : option Z)
  : Async Payload :=
  request credentials (getMixpanelApiUrl credentials)
    ("/events/properties/values?"
       ++ usp_toString (getPropertyValues_params event property limit))
    no_options.

(** *** Cohorts and JQL *)

Definition listCohorts : Async Payload :=
  request credentials (getMixpanelApiUrl credentials) "/cohorts/list"
    {| init_method := Some "POST";
       init_headers := None;
       init_body :=
         Some (stringify
                 (JObject (obj_literal
                    [ ("project_id", JString (projectId credentials)) ]))) |}.

Definition executeJQL (script : string) : Async Payload :=
  request credentials (getMixpanelApiUrl credentials) "/jql"
    {| init_method := Some "POST";
       init_headers := None;
       init_body :=
         Some (stringify
                 (JObject (obj_literal
                    [ ("project_id", JString (projectId credentials));
                      ("script", JString script) ]))) |}.

(** *** Annotations *)


(** *** Schemas *)






(** *** Connection *)



End MoreOperations.

(** The query methods that build their address with [URLSearchParams]
    and hand back what [request] returns. *)
Inductive QueryOp : Type :=
| QInsights (params : InsightsParams)
| QSegmentation (params : SegmentationParams)
| QSegmentationNumeric (params : SegmentationOnParams)
| QSegmentationSum (params : SegmentationOnParams)
| QSegmentationAverage (params : SegmentationOnParams)
| QFunnel (funnelId : Z) (params : FunnelParams)
| QListFunnels
| QRetention (params : RetentionParams)
| QFrequency (params : FrequencyParams)
| QProfileActivity (distinctId : string) (params : option ActivityParams)
| QEventNames (type : string) (limit : option Z)
| QEventProperties (eventName : string)
| QPropertyValues (event property : string) (limit : option Z).

Definition query (credentials : TenantCredentials) (op : QueryOp)
  : Async Payload :=
  match op with
  | QInsights p => queryInsights credentials p
  | QSegmentation p => querySegmentation credentials p
  | QSegmentationNumeric p => querySegmentationNumeric credentials p
  | QSegmentationSum p => querySegmentationSum credentials p
  | QSegmentationAverage p => querySegmentationAverage credentials p
  | QFunnel f p => getFunnel credentials f p
  | QListFunnels => listFunnels credentials
  | QRetention p => getRetention credentials p
  | QFrequency p => getFrequency credentials p
  | QProfileActivity d p => getProfileActivity credentials d p
  | QEventNames t l => getEventNames credentials t l
  | QEventProperties e => getEventProperties credentials e
  | QPropertyValues e p l => getPropertyValues credentials e p l
  end.

(** The path and the parameters of each of them. *)
Definition query_path (op : QueryOp) : string :=
  match op with
  | QInsights _ => "/insights"
  | QSegmentation _ => "/segmentation"
  | QSegmentationNumeric _ => "/segmentation/numeric"
  | QSegmentationSum _ => "/segmentation/sum"
  | QSegmentationAverage _ => "/segmentation/average"
  | QFunnel _ _ => "/funnels"
  | QListFunnels => "/funnels/list"
  | QRetention _ => "/retention"
  | QFrequency _ => "/retention/frequency"
  | QProfileActivity _ _ => "/engage/activity"
  | QEventNames _ _ => "/events/names"
  | QEventProperties _ => "/events/properties/top"
  | QPropertyValues _ _ _ => "/events/properties/values"
  end.

Definition query_params (credentials : TenantCredentials) (op : QueryOp)
  : URLSearchParams :=
  match op with
  | QInsights p => queryInsights_params credentials p
  | QSegmentation p => querySegmentation_params credentials p
  | QSegmentationNumeric p => querySegmentationNumeric_params credentials p
  | QSegmentationSum p => querySegmentationSum_params credentials p
  | QSegmentationAverage p => querySegmentationSum_params credentials p
  | QFunnel f p => getFunnel_params credentials f p
  | QListFunnels => listFunnels_params credentials
  | QRetention p => getRetention_params credentials p
  | QFrequency p => getFrequency_params credentials p
  | QProfileActivity d p => getProfileActivity_params credentials d p
  | QEventNames t l => getEventNames_params credentials t l
  | QEventProperties e => getEventProperties_params credentials e
  | QPropertyValues e p l => getPropertyValues_params credentials e p l
  end.

End Client.

(* ================================================================== *)
(** * [index.ts]: the worker's fetch handler *)
(* ================================================================== *)

Module Worker.
Import Js Http Errors Async Env.

(** The replies of the handler.  [Served a] is the reply of the MCP
    handler, which runs on the server built from the credentials. *)
Inductive Reply (A : Type) : Type :=
| Health
| Unauthorized (status : Z) (message : string) (required_headers : list string)
| Served (a : A)
| SseUnavailable (status : Z)
| Description.
Arguments Health {A}.
Arguments Unauthorized {A} status message required_headers.
Arguments Served {A} a.
Arguments SseUnavailable {A} status.
Arguments Description {A}.

(** The handler.  [serve] stands for the work of the MCP handler of
    [agents/mcp] on the stateless server: the client operations the
    request asks for, on the client built from [credentials]. *)
Definition fetch_handler {A} (request : Request)
  (serve : TenantCredentials -> Async A) : Async (Reply A) :=
  if String.eqb (pathname request) "/health" then ret Health
  else if (String.eqb (pathname request) "/mcp"
           && String.eqb (req_method request) "POST")%bool then
    let credentials := parseTenantCredentials request in
    match validateCredentials credentials with
    | Some error =>
        ret (Unauthorized 401 (message_of error)
               [ "X-Mixpanel-Service-Account-Username";
                 "X-Mixpanel-Service-Account-Secret";
                 "X-Mixpanel-Project-Id" ])
    | None =>
        a <- serve credentials ;;
        ret (Served a)
    end
  else if String.eqb (pathname request) "/sse" then ret (SseUnavailable 501)
  else ret Description.

End Worker.

(* ================================================================== *)
(** * Reference notions *)
(* ================================================================== *)

(** Definitions that follow the specification's words, to which the
    code above is compared. *)
Module Reference.
Import Js Http Errors Async Env.

(** ** Residency *)

(** Case-insensitive equality of two strings: equal once the ASCII
    capitals of both are lowered. *)
Fixpoint equal_ignoring_case (s t : string) : bool :=
  match s, t with
  | EmptyString, EmptyString => true
  | String a s', String b t' =>
      (Ascii.eqb (ascii_lower_char a) (ascii_lower_char b)
       && equal_ignoring_case s' t')%bool
  | _, _ => false
  end.

(** The residency flag a header value denotes. *)
Definition flag_of_header (o : option string) : bool :=
  match o with
  | Some v => equal_ignoring_case v "true"
  | None => false
  end.

(** The four API surfaces and their base URLs, standard and EU. *)
Inductive Surface : Type := Query | Ingestion | DataExport | App.

Definition base_url (eu : bool) (s : Surface) : string :=
  match s, eu with
  | Query, false => "https://mixpanel.com/api/2.0"
  | Query, true => "https://eu.mixpanel.com/api/2.0"
  | Ingestion, false => "https://api.mixpanel.com"
  | Ingestion, true => "https://api-eu.mixpanel.com"
  | DataExport, false => "https://data.mixpanel.com/api/2.0"
  | DataExport, true => "https://data-eu.mixpanel.com/api/2.0"
  | App, false => "https://mixpanel.com/api/app"
  | App, true => "https://eu.mixpanel.com/api/app"
  end.

(** ** Credentials *)

(** The five headers credentials are read from. *)
Definition credential_headers : list string :=
  [ "X-Mixpanel-Service-Account-Username";
    "X-Mixpanel-Service-Account-Secret";
    "X-Mixpanel-Project-Id";
    "X-Mixpanel-Project-Token";
    "X-Mixpanel-EU-Resident" ].

(** A header that is present counts only when its value is not empty. *)
Definition supplied (o : option string) : option string :=
  match o with
  | Some v => if String.eqb v EmptyString then None else Some v
  | None => None
  end.

(** The mandatory fields of a credential set and the header each one
    comes from. *)
Inductive Field : Type := FUsername | FSecret | FProjectId.

Definition field_value (c : TenantCredentials) (f : Field) : string :=
  match f with
  | FUsername => username c
  | FSecret => secret c
  | FProjectId => projectId c
  end.

Definition header_of (f : Field) : string :=
  match f with
  | FUsername => "X-Mixpanel-Service-Account-Username"
  | FSecret => "X-Mixpanel-Service-Account-Secret"
  | FProjectId => "X-Mixpanel-Project-Id"
  end.

Definition missing (c : TenantCredentials) (f : Field) : Prop :=
  field_value c f = EmptyString.

(** An error names a field when its message holds the field's header. *)
Definition names (e : Error) (f : Field) : Prop :=
  includes (message_of e) (header_of f) = true.

(** The error names every field that is missing. *)
Definition names_every_missing_field (c : TenantCredentials) (e : Error) : Prop :=
  forall f, missing c f -> names e f.

(** ** Operations *)

(** The surface an ingestion-class operation belongs to: the app
    surface for the GDPR requests, the ingestion surface for the rest. *)
Definition surface_of (op : Client.IngestionOp) : Surface :=
  if Client.is_gdpr op then App else Ingestion.

(** The operations that post straight to an ingestion endpoint and
    report a status: every ingestion-class operation but the batch
    import and the GDPR requests. *)
Definition is_direct (op : Client.IngestionOp) : bool :=
  match op with
  | Client.OpImportEvents _ => false
  | _ => negb (Client.is_gdpr op)
  end.

(** A token-required error: an [ApiError] without status whose message
    says so and names the header to set. *)
Definition token_required (e : Error) : Prop :=
  exists m, e = ApiError m None
    /\ String.prefix "Project token required" m = true
    /\ includes m "X-Mixpanel-Project-Token" = true.

(** ** Responses *)

(** A numeric header value: one or more decimal digits; and its value. *)
Definition numeric (v : string) : bool :=
  (negb (String.eqb v EmptyString) && all_digits v)%bool.

Definition decimal_value (v : string) : Z :=
  fold_left (fun acc c => 10 * acc + (Z.of_N (code c) - 48))%Z
    (list_ascii_of_string v) 0%Z.

(** ** Query strings *)

(** Reading a query string back: the pairs between ampersands, each cut
    at its first equals sign, with plus signs and percent escapes
    decoded byte by byte. *)
Definition hex_val (c : ascii) : option N :=
  let n := code c in
  if in_range 48 57 c then Some (n - 48)%N
  else if in_range 65 70 c then Some (n - 55)%N
  else if in_range 97 102 c then Some (n - 87)%N
  else None.

Fixpoint form_decode (s : string) : string :=
  match s with
  | EmptyString => EmptyString
  | String c r =>
      if N.eqb (code c) 43 then String (ascii_of_N 32) (form_decode r)
      else if N.eqb (code c) 37 then
        match r with
        | String h (String l r') =>
            match hex_val h, hex_val l with
            | Some a, Some b => String (ascii_of_N (16 * a + b)) (form_decode r')
            | _, _ => String c (form_decode r)
            end
        | _ => String c (form_decode r)
        end
      else String c (form_decode r)
  end.

Fixpoint cut_at (c : ascii) (s : string) : string * string :=
  match s with
  | EmptyString => (EmptyString, EmptyString)
  | String d r =>
      if Ascii.eqb d c then (EmptyString, r)
      else let '(a, b) := cut_at c r in (String d a, b)
  end.

Definition parse_query (s : string) : list (string * string) :=
  map (fun pair =>
         let '(n, v) := cut_at (ascii_of_N 61) pair in
         (form_decode n, form_decode v))
      (split_on (ascii_of_N 38) s).

(** ** Mutation envelopes *)

(** The operation keys of a profile or group mutation. *)
Definition operation_keys : list string :=
  [ "$set"; "$set_once"; "$add"; "$append"; "$remove"; "$union"; "$unset";
    "$delete" ].

(** The profile mutations: the profile each one addresses, its operation
    key and its payload. *)
Definition profile_mutation (op : Client.IngestionOp)
  : option (string * string * json) :=
  match op with
  | Client.OpSetProfileProperties d p => Some (d, "$set", JObject p)
  | Client.OpSetProfilePropertiesOnce d p => Some (d, "$set_once", JObject p)
  | Client.OpIncrementProfileProperties d p => Some (d, "$add", JObject p)
  | Client.OpAppendToProfileList d prop vs =>
      Some (d, "$append", JObject [ (prop, JArray vs) ])
  | Client.OpRemoveFromProfileList d prop vs =>
      Some (d, "$remove", JObject [ (prop, JArray vs) ])
  | Client.OpUnionToProfileList d p => Some (d, "$union", JObject p)
  | Client.OpUnsetProfileProperties d ps =>
      Some (d, "$unset", JArray (map JString ps))
  | Client.OpDeleteProfile d => Some (d, "$delete", JString EmptyString)
  | _ => None
  end.

(** The group mutations: group key, group id, operation key, payload. *)
Definition group_mutation (op : Client.IngestionOp)
  : option (string * string * string * json) :=
  match op with
  | Client.OpSetGroupProperties k g p => Some (k, g, "$set", JObject p)
  | Client.OpSetGroupPropertiesOnce k g p => Some (k, g, "$set_once", JObject p)
  | Client.OpUnsetGroupProperties k g ps =>
      Some (k, g, "$unset", JArray (map JString ps))
  | Client.OpDeleteGroup k g => Some (k, g, "$delete", JString EmptyString)
  | _ => None
  end.

(** A string that JSON writes between quotes as it is: no control
    character, double quote or backslash in it. *)
Fixpoint json_plain (s : string) : bool :=
  match s with
  | EmptyString => true
  | String c r =>
      (N.leb 32 (code c) && negb (N.eqb (code c) 34)
       && negb (N.eqb (code c) 92) && json_plain r)%bool
  end.

(** A name between double quotes. *)
Definition quoted (s : string) : string := DQ ++ s ++ DQ.

(** ** Tables and CSV text *)

(** A row cut down to the columns [keys]. *)
Definition restrict_to (keys : list string) (row : obj json) : obj json :=
  filter (fun kv => existsb (String.eqb (fst kv)) keys) row.

(** The text a cell stands for: the value as a string, empty for a
    value that is null or not there. *)
Definition cell_value (row : obj json) (h : string) : string :=
  match obj_get row h with
  | None => EmptyString
  | Some JNull => EmptyString
  | Some val => to_String val
  end.

(** A reader of CSV text after RFC 4180, for the text the client writes:
    records are separated by line feeds (none follows the last record),
    fields by commas; a field that opens with a double quote runs to the
    closing one, a doubled quote inside it standing for one quote; a
    quote elsewhere is malformed. *)
Inductive CsvState : Type := FieldStart | Unquoted | Quoted | AfterQuote.

(** The records read so far are built from the back: [push c] puts [c]
    in front of the field being read, [end_field] and [end_record] open
    a new field and a new record in front of it. *)
Definition push (c : ascii) (r : option (list (list string)))
  : option (list (list string)) :=
  match r with
  | Some ((f :: fs) :: rs) => Some ((String c f :: fs) :: rs)
  | _ => None
  end.

Definition end_field (r : option (list (list string)))
  : option (list (list string)) :=
  match r with
  | Some (fs :: rs) => Some ((EmptyString :: fs) :: rs)
  | _ => None
  end.

Definition end_record (r : option (list (list string)))
  : option (list (list string)) :=
  match r with
  | Some rs => Some ([EmptyString] :: rs)
  | None => None
  end.

Fixpoint read_csv (st : CsvState) (s : string) : option (list (list string)) :=
  match s with
  | EmptyString =>
      match st with
      | Quoted => None
      | _ => Some [[EmptyString]]
      end
  | String c r =>
      match st with
      | FieldStart =>
          if Ascii.eqb c dquote then read_csv Quoted r
          else if Ascii.eqb c comma then end_field (read_csv FieldStart r)
          else if Ascii.eqb c newline then end_record (read_csv FieldStart r)
          else push c (read_csv Unquoted r)
      | Unquoted =>
          if Ascii.eqb c dquote then None
          else if Ascii.eqb c comma then end_field (read_csv FieldStart r)
          else if Ascii.eqb c newline then end_record (read_csv FieldStart r)
          else push c (read_csv Unquoted r)
      | Quoted =>
          if Ascii.eqb c dquote then read_csv AfterQuote r
          else push c (read_csv Quoted r)
      | AfterQuote =>
          if Ascii.eqb c dquote then push dquote (read_csv Quoted r)
          else if Ascii.eqb c comma then end_field (read_csv FieldStart r)
          else if Ascii.eqb c newline then end_record (read_csv FieldStart r)
          else None
      end
  end.

Definition parse_csv (s : string) : option (list (list string)) :=
  read_csv FieldStart s.

(** What a faithful round trip reads back from the table of [data]: the
    header record, then the record of the cell values of each row. *)
Definition table_of (row0 : obj json) (data : list (obj json))
  : list (list string) :=
  (obj_keys row0 :: map (fun row => map (cell_value row) (obj_keys row0)) data)%list.






(** ** Export lines *)

(** A line that holds a record: it starts and ends with something other
    than white space (so it is not empty) and holds no line feed. *)
Definition starts_clean (s : string) : bool :=
  match s with
  | String c _ => negb (is_ws c)
  | EmptyString => false
  end.

Definition ends_clean (s : string) : bool :=
  starts_clean (rev_string s EmptyString).

Definition record_line (l : string) : bool :=
  (starts_clean l && ends_clean l && negb (includes_char l newline))%bool.

(** ** ASCII text and percent escapes *)

Fixpoint is_ascii (s : string) : bool :=
  match s with
  | EmptyString => true
  | String c r => (N.ltb (code c) 128 && is_ascii r)%bool
  end.

Definition ascii_pair (kv : string * string) : bool :=
  (is_ascii (fst kv) && is_ascii (snd kv))%bool.




(** ** JSON strings read back *)

(** The character an escape letter stands for. *)
Definition json_escape_letter (e : ascii) : option ascii :=
  let n := code e in
  if (N.eqb n 34 || N.eqb n 92 || N.eqb n 47)%bool then Some e
  else if N.eqb n 98 then Some (ascii_of_N 8)
  else if N.eqb n 102 then Some (ascii_of_N 12)
  else if N.eqb n 110 then Some (ascii_of_N 10)
  else if N.eqb n 114 then Some (ascii_of_N 13)
  else if N.eqb n 116 then Some (ascii_of_N 9)
  else None.

Definition hex4 (h1 h2 h3 h4 : ascii) : option N :=
  match hex_val h1, hex_val h2, hex_val h3, hex_val h4 with
  | Some a, Some b, Some c, Some d => Some (((a * 16 + b) * 16 + c) * 16 + d)%N
  | _, _, _, _ => None
  end.

(** The text of a JSON string from after its opening quote to its
    closing quote, which must end the input; escapes of code units
    above 255 are outside the embedding's strings. *)
Fixpoint json_unescape (s : string) : option string :=
  match s with
  | EmptyString => None
  | String c r =>
      if N.eqb (code c) 34 then
        match r with
        | EmptyString => Some EmptyString
        | _ => None
        end
      else if N.eqb (code c) 92 then
        match r with
        | String e r' =>
            if N.eqb (code e) 117 then
              match r' with
              | String h1 (String h2 (String h3 (String h4 r''))) =>
                  match hex4 h1 h2 h3 h4 with
                  | Some v =>
                      if N.ltb v 256
                      then option_map (String (ascii_of_N v)) (json_unescape r'')
                      else None
                  | None => None
                  end
              | _ => None
              end
            else
              match json_escape_letter e with
              | Some x => option_map (String x) (json_unescape r')
              | None => None
              end
        | EmptyString => None
        end
      else if N.ltb (code c) 32 then None
      else option_map (String c) (json_unescape r)
  end.

Definition json_unquote (s : string) : option string :=
  match s with
  | String c r => if N.eqb (code c) 34 then json_unescape r else None
  | EmptyString => None
  end.

End Reference.

(* ================================================================== *)
(** * Properties of credential resolution *)
(* ================================================================== *)

Section CredentialResolution.
Import Js Http Errors Async Env Client Worker Reference.

(** ** The residency flag *)

Lemma lower_char_true_letter (c t : ascii) :
  In t [ "t"%char; "r"%char; "u"%char; "e"%char ] ->
  Ascii.eqb (lower_char c) t
  = Ascii.eqb (ascii_lower_char c) (ascii_lower_char t).
Proof.
  intros Ht.
  destruct c as [b0 b1 b2 b3 b4 b5 b6 b7].
  destruct Ht as [<- | [<- | [<- | [<- | []]]]];
    destruct b0, b1, b2, b3, b4, b5, b6, b7; reflexivity.
Qed.

Lemma toLowerCase_true (v : string) :
  String.eqb (toLowerCase v) "true" = equal_ignoring_case v "true".
Proof.
  destruct v as [|c1 v]; [reflexivity|].
  destruct v as [|c2 v];
    [cbn; rewrite lower_char_true_letter by (cbn; tauto);
     destruct (Ascii.eqb _ _); reflexivity|].
  destruct v as [|c3 v];
    [cbn; rewrite !lower_char_true_letter by (cbn; tauto);
     repeat (destruct (Ascii.eqb _ _); cbn; try reflexivity)|].
  destruct v as [|c4 v];
    [cbn; rewrite !lower_char_true_letter by (cbn; tauto);
     repeat (destruct (Ascii.eqb _ _); cbn; try reflexivity)|].
  destruct v as [|c5 v]; cbn; rewrite !lower_char_true_letter by (cbn; tauto);
    repeat (destruct (Ascii.eqb _ _); cbn; try reflexivity).
Qed.

Lemma is_true_flag_spec (o : option string) :
  is_true_flag o = flag_of_header o.
Proof.
  destruct o as [v|]; [apply toLowerCase_true | reflexivity].
Qed.

Example eu_flag_mixed_case :
  euResident (parseTenantCredentials
    (mkRequest "/mcp" "POST" [ ("x-mixpanel-eu-resident", "TrUe") ])) = Some true.
Proof. reflexivity. Qed.

Example eu_flag_other_value :
  euResident (parseTenantCredentials
    (mkRequest "/mcp" "POST" [ ("X-Mixpanel-EU-Resident", "yes") ])) = Some false.
Proof. reflexivity. Qed.

(** ** Validation *)

Lemma truthy_string_false (s : string) :
  truthy_string s = false <-> s = EmptyString.
Proof.
  unfold truthy_string. destruct s; cbn; split; congruence.
Qed.

Lemma truthy_string_true (s : string) :
  truthy_string s = true <-> s <> EmptyString.
Proof.
  unfold truthy_string. destruct s; cbn; split; congruence.
Qed.

(** A credential set passes validation exactly when its three mandatory
    fields are non-empty. *)
Lemma validateCredentials_None (c : TenantCredentials) :
  validateCredentials c = None
  <-> username c <> EmptyString /\ secret c <> EmptyString
      /\ projectId c <> EmptyString.
Proof.
  unfold validateCredentials.
  destruct (truthy_string (username c)) eqn:Hu;
  destruct (truthy_string (secret c)) eqn:Hs;
  destruct (truthy_string (projectId c)) eqn:Hp; cbn;
  rewrite ?truthy_string_true, ?truthy_string_false in *;
  split; try discriminate; try tauto; intros; repeat split; assumption.
Qed.

(** A credential set missing both the username and the project id: the
    error names the service-account headers and not the project id. *)
Lemma validation_names_first_failure_only :
  let c := mkCredentials EmptyString "shh" EmptyString None None in
  let e := PlainError
    "Missing credentials. Provide X-Mixpanel-Service-Account-Username and X-Mixpanel-Service-Account-Secret headers." in
  validateCredentials c = Some e
  /\ missing c FProjectId
  /\ ~ names_every_missing_field c e.
Proof.
  cbv zeta. split; [reflexivity|]. split; [reflexivity|].
  intros H. specialize (H FProjectId eq_refl).
  unfold names in H. vm_compute in H. discriminate.
Qed.

(** C5, as the code has it.  For every credential set in which username, secret or
    projectId is missing, validation throws, the worker answers 401 with
    the error's message before any network call is made, and the message
    names the headers of the first check that fails: both service-account
    headers when username or secret is missing, and the project-id header
    when only projectId is missing. *)
Theorem missing_credentials_rejected (c : TenantCredentials)
  (Hmissing : exists f, missing c f) :
  exists e,
    validateCredentials c = Some e
    /\ (missing c FUsername \/ missing c FSecret ->
        names e FUsername /\ names e FSecret)
    /\ (~ missing c FUsername -> ~ missing c FSecret -> names e FProjectId)
    /\ forall (A : Type) (request : Request) (serve : TenantCredentials -> Async A)
         (w : World),
         pathname request = "/mcp" -> req_method request = "POST" ->
         parseTenantCredentials request = c ->
         run (fetch_handler request serve) w
         = ([], Returned (Unauthorized 401 (message_of e)
                            [ header_of FUsername; header_of FSecret;
                              header_of FProjectId ])).
Proof.
  assert (Hcases :
    (truthy_string (username c) && truthy_string (secret c))%bool = false
    \/ (truthy_string (username c) = true /\ truthy_string (secret c) = true
        /\ truthy_string (projectId c) = false)).
  { destruct Hmissing as [[| |] Hf]; unfold missing in Hf; cbn in Hf;
      apply truthy_string_false in Hf; rewrite Hf.
    - left; reflexivity.
    - left; apply andb_false_r.
    - destruct (truthy_string (username c)), (truthy_string (secret c));
        cbn; auto. }
  destruct Hcases as [Hus | (Hu & Hs & Hp)].
  - eexists. split.
    + unfold validateCredentials.
      rewrite <- negb_andb, Hus. reflexivity.
    + split; [intros _; split; reflexivity|].
      split.
      * intros Hnu Hns. exfalso.
        apply andb_false_iff in Hus.
        destruct Hus as [H | H]; apply truthy_string_false in H; auto.
      * intros A request serve w Hpath Hmeth Hparse.
        unfold run, fetch_handler. rewrite Hpath, Hmeth, Hparse. cbn.
        unfold validateCredentials. rewrite <- negb_andb, Hus. reflexivity.
  - eexists. split.
    + unfold validateCredentials. rewrite Hu, Hs, Hp. reflexivity.
    + split.
      * intros [H | H]; unfold missing in H; cbn in H;
          apply truthy_string_false in H; congruence.
      * split; [intros _ _; reflexivity|].
        intros A request serve w Hpath Hmeth Hparse.
        unfold run, fetch_handler. rewrite Hpath, Hmeth, Hparse. cbn.
        unfold validateCredentials. rewrite Hu, Hs, Hp. reflexivity.
Qed.

Lemma missing_credentials_rejected_witness :
  exists e,
    validateCredentials (mkCredentials "svc" "shh" EmptyString None None) = Some e
    /\ names e FProjectId.
Proof.
  destruct (missing_credentials_rejected
              (mkCredentials "svc" "shh" EmptyString None None)
              (ex_intro _ FProjectId eq_refl)) as (e & He & _ & Hn & _).
  exists e. split; [exact He|].
  apply Hn; unfold missing; cbn; discriminate.
Defined.

(** ** Empty headers *)

Lemma or_else_supplied (o : option string) :
  or_else o EmptyString
  = match supplied o with Some v => v | None => EmptyString end.
Proof.
  destruct o as [v|]; [|reflexivity].
  unfold or_else, supplied, truthy_string.
  destruct (String.eqb v EmptyString); reflexivity.
Qed.

Lemma or_undefined_supplied (o : option string) :
  or_undefined o = supplied o.
Proof.
  destruct o as [v|]; [|reflexivity].
  unfold or_undefined, supplied, truthy_string.
  destruct (String.eqb v EmptyString); reflexivity.
Qed.

Lemma is_true_flag_supplied (o : option string) :
  is_true_flag o = is_true_flag (supplied o).
Proof.
  destruct o as [[|c v]|]; reflexivity.
Qed.

(** Parsing reads each header through [supplied] only. *)
Lemma parseTenantCredentials_supplied (r : Request) :
  let get name := supplied (Headers_get (req_headers r) name) in
  parseTenantCredentials r
  = {| username := match get "X-Mixpanel-Service-Account-Username" with
                   | Some v => v | None => EmptyString end;
       secret := match get "X-Mixpanel-Service-Account-Secret" with
                 | Some v => v | None => EmptyString end;
       projectId := match get "X-Mixpanel-Project-Id" with
                    | Some v => v | None => EmptyString end;
       projectToken := get "X-Mixpanel-Project-Token";
       euResident := Some (is_true_flag (get "X-Mixpanel-EU-Resident")) |}.
Proof.
  cbv zeta. unfold parseTenantCredentials.
  rewrite !or_else_supplied, or_undefined_supplied.
  rewrite (is_true_flag_supplied (Headers_get _ "X-Mixpanel-EU-Resident")).
  reflexivity.
Qed.

(** C9.  A credential header that is present with an empty value is
    treated exactly like an absent one: two requests whose five
    credential headers agree once empty values count as absent parse to
    the same credentials; an absent or empty username, secret or project
    id parses to the empty string and an absent or empty project token to
    undefined; and validation rejects empty strings, so that credentials
    that pass validation have a non-empty username, secret and project
    id. *)
Theorem empty_header_is_absent (r1 r2 : Request)
  (Hsame : forall name, In name credential_headers ->
     supplied (Headers_get (req_headers r1) name)
     = supplied (Headers_get (req_headers r2) name)) :
  parseTenantCredentials r1 = parseTenantCredentials r2
  /\ (forall f, supplied (Headers_get (req_headers r1) (header_of f)) = None ->
        field_value (parseTenantCredentials r1) f = EmptyString)
  /\ (supplied (Headers_get (req_headers r1) "X-Mixpanel-Project-Token") = None ->
        projectToken (parseTenantCredentials r1) = None)
  /\ (forall c, validateCredentials c = None ->
        forall f, field_value c f <> EmptyString).
Proof.
  split; [|split; [|split]].
  - rewrite (parseTenantCredentials_supplied r1),
            (parseTenantCredentials_supplied r2).
    cbv zeta.
    rewrite !Hsame by (cbn; tauto). reflexivity.
  - intros f Hf. rewrite parseTenantCredentials_supplied. cbv zeta.
    destruct f; cbn in *; rewrite Hf; reflexivity.
  - intros Ht. rewrite parseTenantCredentials_supplied. cbv zeta. cbn.
    exact Ht.
  - intros c Hc f. apply validateCredentials_None in Hc.
    destruct f; cbn; tauto.
Qed.

Lemma empty_header_is_absent_witness :
  parseTenantCredentials
    (mkRequest "/mcp" "POST"
       [ ("X-Mixpanel-Service-Account-Username", EmptyString);
         ("X-Mixpanel-Service-Account-Secret", "shh");
         ("X-Mixpanel-Project-Token", EmptyString) ])
  = parseTenantCredentials
      (mkRequest "/mcp" "POST" [ ("X-Mixpanel-Service-Account-Secret", "shh") ]).
Proof.
  refine (proj1 (empty_header_is_absent _ _ _)).
  intros name Hin. cbn in Hin.
  destruct Hin as [<- | [<- | [<- | [<- | [<- | []]]]]]; reflexivity.
Defined.

End CredentialResolution.

(* ================================================================== *)
(** * Properties of the client *)
(* ================================================================== *)

(** Unfolding a method call down to the request helpers, and splitting
    on every test that stands in the way. *)
Ltac unfold_method :=
  cbv [Client.invoke Client.lift
       Client.trackEvent Client.trackEvents Client.importEvents
       Client.setProfileProperties Client.setProfilePropertiesOnce
       Client.incrementProfileProperties Client.appendToProfileList
       Client.removeFromProfileList Client.unionToProfileList
       Client.unsetProfileProperties Client.deleteProfile Client.engageRequest
       Client.setGroupProperties Client.setGroupPropertiesOnce
       Client.unsetGroupProperties Client.deleteGroup Client.groupRequest
       Client.createIdentity Client.createAlias Client.mergeIdentities
       Client.createDataRetrieval Client.getDataRetrievalStatus
       Client.createDataDeletion Client.getDataDeletionStatus
       Client.cancelDataDeletion].

Ltac split_tests :=
  repeat match goal with
         | |- context [if ?b then _ else _] => destruct b
         end.

Section ClientProperties.
Import Js Http Errors Async Env Client Worker Reference.

(** ** The project token *)

Lemma token_required_intro (m : string) :
  String.prefix "Project token required" m = true ->
  includes m "X-Mixpanel-Project-Token" = true ->
  token_required (ApiError m None).
Proof. intros H1 H2. exists m. auto. Qed.

(** X5.  Without a project token (absent or empty), every
    ingestion-class operation other than the GDPR requests throws a
    token-required error, naming the header to set, and calls nothing. *)
Lemma ingestion_requires_token (c : TenantCredentials) (op : IngestionOp)
  (w : World) :
  truthy_opt (projectToken c) = false ->
  is_gdpr op = false ->
  exists e, run (invoke c op) w = ([], Threw e) /\ token_required e.
Proof.
  intros Htok Hop.
  destruct op; try discriminate Hop;
    unfold_method; unfold run, bind;
    rewrite Htok; cbn [negb throw];
    (eexists; split; [reflexivity|]);
    apply token_required_intro; vm_compute; reflexivity.
Qed.

(** ** Running the request helpers *)

Lemma prefix_app (a b : string) : String.prefix a (a ++ b) = true.
Proof.
  induction a as [|c a IH]; cbn.
  - destruct b; reflexivity.
  - destruct (ascii_dec c c); [exact IH | congruence].
Qed.

(** A continuation that calls nothing leaves the log of calls alone. *)
Lemma run_bind_fst {A B} (m : Async A) (f : A -> B) (w : World) :
  fst (run (a <- m ;; ret (f a)) w) = fst (run m w).
Proof.
  unfold run, bind, ret. destruct (m w []) as [log [e|a]]; reflexivity.
Qed.

Lemma run_bind_snd {A B} (m : Async A) (f : A -> B) (w : World) :
  snd (run (a <- m ;; ret (f a)) w)
  = match snd (run m w) with
    | Threw e => Threw e
    | Returned a => Returned (f a)
    end.
Proof.
  unfold run, bind, ret. destruct (m w []) as [log [e|a]]; reflexivity.
Qed.

(** [request] makes exactly one call, whatever the response. *)
Lemma request_calls (c : TenantCredentials) (baseUrl endpoint : string)
  (options : RequestInit) (w : World) :
  fst (run (request c baseUrl endpoint options) w)
  = [request_call c baseUrl endpoint options].
Proof.
  unfold run, request, bind, fetch, throw, ret. cbn.
  split_tests; reflexivity.
Qed.

(** The GDPR requests have no such guard: each of them calls the app
    surface once, whether or not a token is there. *)
Lemma gdpr_calls_once (c : TenantCredentials) (op : IngestionOp) (w : World) :
  is_gdpr op = true ->
  exists call, calls_of (invoke c op) w = [call]
    /\ String.prefix (getAppApiUrl c) (url call) = true.
Proof.
  intros Hop.
  destruct op; try discriminate Hop;
    unfold_method; unfold calls_of; rewrite ?run_bind_fst, request_calls;
    (eexists; split; [reflexivity|]); apply prefix_app.
Qed.

(** The errors [request] throws come from the response: none of them is
    a token-required error. *)
Lemma request_never_token_required (c : TenantCredentials)
  (baseUrl endpoint : string) (options : RequestInit) (w : World) (e : Error) :
  snd (run (request c baseUrl endpoint options) w) = Threw e ->
  ~ token_required e.
Proof.
  unfold run, request, bind, fetch, throw, ret. cbn.
  intros H [m (Hm & _)]. subst e.
  repeat match type of H with
         | context [if ?b then _ else _] => destruct b
         end; cbn in H; discriminate H.
Qed.

(** C1.  The specification asks that every ingestion-class operation,
    the GDPR requests included, fails with a token-required error and
    makes no HTTP call when the credentials hold no project token.  The
    GDPR requests do not: on such credentials a data-retrieval request
    makes one HTTP call, to an address that carries the text undefined
    where the token belongs, and whatever the service answers the
    operation throws no token-required error. *)
Theorem gdpr_request_without_token_is_sent (w : World) :
  let credentials := mkCredentials "svc" "shh" "123" None (Some false) in
  let op := OpCreateDataRetrieval [ "u1" ] None in
  calls_of (invoke credentials op) w
  = [ {| url := "https://mixpanel.com/api/app/data-retrievals/v3.0?token=undefined";
         method := Some "POST";
         headers := [ ("Authorization", "Basic c3ZjOnNoaA==");
                      ("Content-Type", "application/json");
                      ("Accept", "application/json") ];
         body := Some (stringify
                         (JObject [ ("distinct_ids", JArray [ JString "u1" ]) ])) |} ]
  /\ forall e, outcome_of (invoke credentials op) w = Threw e -> ~ token_required e.
Proof.
  cbv zeta. split.
  - unfold calls_of. unfold_method.
    rewrite run_bind_fst, request_calls. reflexivity.
  - intros e. unfold outcome_of. unfold_method.
    rewrite run_bind_snd.
    destruct (snd (run _ w)) as [e'|a] eqn:Hrun; [|discriminate].
    intros [= <-]. eapply request_never_token_required. exact Hrun.
Qed.

(** ** Reading the response *)

Lemma digit_is_not_space (ch : ascii) :
  in_range 48 57 ch = true ->
  is_ws ch = false /\ N.eqb (code ch) 45 = false /\ N.eqb (code ch) 43 = false
  /\ digit_val ch = Some (Z.of_N (code ch) - 48)%Z.
Proof.
  intros H. unfold digit_val. rewrite H.
  destruct ch as [b0 b1 b2 b3 b4 b5 b6 b7].
  destruct b0, b1, b2, b3, b4, b5, b6, b7;
    try discriminate H; repeat split; reflexivity.
Qed.

Lemma take_digits_all (s : string) (a : Z) :
  all_digits s = true ->
  take_digits s (Some a)
  = Some (fold_left (fun acc ch => 10 * acc + (Z.of_N (code ch) - 48))%Z
            (list_ascii_of_string s) a).
Proof.
  revert a. induction s as [|ch s IH]; intros a H; [reflexivity|].
  cbn in H. apply andb_prop in H. destruct H as [Hc Hs].
  cbn [take_digits list_ascii_of_string fold_left].
  destruct (digit_is_not_space ch Hc) as (_ & _ & _ & ->).
  apply IH, Hs.
Qed.

(** On a run of digits, [parseInt] gives the number they write. *)
Lemma parseInt10_numeric (v : string) :
  numeric v = true -> parseInt10 v = JNum (decimal_value v).
Proof.
  unfold numeric. destruct v as [|ch s]; [discriminate|].
  cbn [String.eqb negb andb all_digits]. intros H.
  apply andb_prop in H. destruct H as [Hc Hs].
  destruct (digit_is_not_space ch Hc) as (Hws & Hminus & Hplus & Hd).
  unfold parseInt10. cbn [skip_ws]. rewrite Hws, Hminus, Hplus.
  cbn [take_digits]. rewrite Hd.
  rewrite take_digits_all by exact Hs.
  unfold decimal_value. cbn [list_ascii_of_string fold_left].
  rewrite Z.mul_0_r, Z.add_0_l. reflexivity.
Qed.

(** The outcome of [request] when the service answers [response]. *)
Lemma request_outcome (c : TenantCredentials) (baseUrl endpoint : string)
  (options : RequestInit) (response : Response) (now : Z) :
  outcome_of (request c baseUrl endpoint options) (answering response now)
  = if Z.eqb (status response) 429 then
      Threw (RateLimitError "Rate limit exceeded"
               (match supplied (Headers_get (resp_headers response) "Retry-After") with
                | Some v => parseInt10 v
                | None => JNum 60
                end))
    else if (Z.eqb (status response) 401 || Z.eqb (status response) 403)%bool then
      Threw (AuthenticationError "Invalid credentials")
    else if negb (ok response) then
      Threw (ApiError ("API error: " ++ string_of_Z (status response) ++ " - "
                         ++ text response)
               (Some (status response)))
    else Returned
           (if match Headers_get (resp_headers response) "content-type" with
               | Some ct => includes ct "application/json"
               | None => false
               end
            then JsonOf (text response) else TextOf (text response)).
Proof.
  unfold outcome_of, run, request, bind, fetch, throw, ret, answering. cbn.
  destruct (Z.eqb (status response) 429).
  - destruct (Headers_get (resp_headers response) "Retry-After") as [v|];
      [|reflexivity].
    unfold supplied, truthy_opt, truthy_string.
    destruct (String.eqb v EmptyString); reflexivity.
  - destruct (Z.eqb (status response) 401 || Z.eqb (status response) 403)%bool;
      [reflexivity|].
    destruct (negb (ok response)); [reflexivity|].
    destruct (Headers_get (resp_headers response) "content-type") as [ct|];
      [destruct (includes ct "application/json")|]; reflexivity.
Qed.

Lemma requestIngestion_outcome (c : TenantCredentials) (endpoint : string)
  (data : json) (useProjectToken : bool) (response : Response) (now : Z) :
  outcome_of (requestIngestion c endpoint data useProjectToken)
    (answering response now)
  = if Z.eqb (status response) 429 then
      Threw (RateLimitError "Rate limit exceeded" (JNum 60))
    else if negb (ok response) then
      Threw (ApiError ("Ingestion API error: " ++ string_of_Z (status response)
                         ++ " - " ++ text response)
               (Some (status response)))
    else Returned (JsonOf (text response)).
Proof.
  unfold outcome_of, run, requestIngestion, bind, fetch, throw, ret, answering.
  cbn.
  destruct (Z.eqb (status response) 429); [reflexivity|].
  destruct (negb (ok response)); reflexivity.
Qed.

Lemma exportEvents_outcome (c : TenantCredentials) (params : ExportParams)
  (response : Response) (now : Z) :
  outcome_of (exportEvents c params) (answering response now)
  = if Z.eqb (status response) 429 then
      Threw (RateLimitError "Rate limit exceeded" (JNum 60))
    else if negb (ok response) then
      Threw (ApiError ("Export failed: " ++ string_of_Z (status response)
                         ++ " - " ++ text response)
               (Some (status response)))
    else Returned (export_lines (text response)).
Proof.
  unfold outcome_of, run, exportEvents, bind, fetch, throw, ret, answering.
  cbn.
  destruct (Z.eqb (status response) 429); [reflexivity|].
  destruct (negb (ok response)); reflexivity.
Qed.

Lemma importEvents_outcome (c : TenantCredentials) (events : list EventRecord)
  (response : Response) (now : Z) :
  truthy_opt (projectToken c) = true ->
  outcome_of (importEvents c events) (answering response now)
  = if Z.eqb (status response) 429 then
      Threw (RateLimitError "Rate limit exceeded" (JNum 60))
    else if negb (ok response) then
      Threw (ApiError ("Ingestion API error: " ++ string_of_Z (status response)
                         ++ " - " ++ text response)
               (Some (status response)))
    else Returned (JsonOf (text response)).
Proof.
  intros Htok. unfold importEvents. rewrite Htok. cbn [negb].
  apply requestIngestion_outcome.
Qed.

(** With a token, a direct ingestion operation makes one call and
    reports whether the response was a success; it throws nothing. *)
Lemma direct_operation_outcome (c : TenantCredentials) (op : IngestionOp)
  (response : Response) (now : Z) :
  truthy_opt (projectToken c) = true ->
  is_direct op = true ->
  outcome_of (invoke c op) (answering response now)
  = Returned (ResStatus (status_of response))
  /\ length (calls_of (invoke c op) (answering response now)) = 1%nat.
Proof.
  intros Htok Hop.
  destruct op; try discriminate Hop;
    unfold_method; rewrite Htok; split; reflexivity.
Qed.

Lemma lookup_table_outcome (c : TenantCredentials) (tableName : string)
  (row0 : obj json) (rest : list (obj json)) (response : Response) (now : Z) :
  outcome_of (createOrReplaceLookupTable c tableName (row0 :: rest))
    (answering response now)
  = if negb (ok response) then
      Threw (ApiError ("Failed to create lookup table: " ++ text response)
               (Some (status response)))
    else Returned "ok".
Proof.
  unfold outcome_of, run, createOrReplaceLookupTable, bind, fetch, throw, ret,
    answering.
  cbn. destruct (negb (ok response)); reflexivity.
Qed.

(** ** Rate limits *)

(** On the import path a 429 answer with a numeric Retry-After header
    of 30 gives a retry-after of 60. *)
Lemma import_rate_limit_ignores_header :
  let c := mkCredentials "svc" "shh" "123" (Some "tok") (Some false) in
  let response := mkResponse 429 [ ("Retry-After", "30") ] EmptyString in
  Headers_get (resp_headers response) "Retry-After" = Some "30"
  /\ numeric "30" = true
  /\ decimal_value "30" = 30%Z
  /\ outcome_of (importEvents c []) (answering response 0)
     = Threw (RateLimitError "Rate limit exceeded" (JNum 60))
  /\ JNum 60 <> JNum (decimal_value "30").
Proof.
  cbv zeta. repeat split; try reflexivity. vm_compute. discriminate.
Qed.

(** The same header read by [request] when it holds an HTTP date: the
    conversion fails and the retry-after is not a number. *)
Example request_rate_limit_http_date :
  let c := mkCredentials "svc" "shh" "123" None (Some false) in
  let response :=
    mkResponse 429 [ ("Retry-After", "Wed, 21 Oct 2015 07:28:00 GMT") ]
      EmptyString in
  outcome_of (request c (getMixpanelApiUrl c) "/events/names" no_options)
    (answering response 0)
  = Threw (RateLimitError "Rate limit exceeded" JNaN).
Proof. reflexivity. Qed.

(** C3, as the code has it.  When the service answers 429: an operation routed
    through [request] throws a rate-limit error whose retry-after is 60
    when the Retry-After header is absent or empty, and the integer the
    header writes when it is numeric (a run of decimal digits, below
    2^53, the range in which the number read is exact); the event import
    and the raw export throw a rate-limit error whose retry-after is 60
    whatever the header. *)
Theorem rate_limit_retry_after (c : TenantCredentials) (response : Response)
  (now : Z) (H429 : status response = 429%Z) :
  let w := answering response now in
  let header := Headers_get (resp_headers response) "Retry-After" in
  (forall baseUrl endpoint options,
      (supplied header = None ->
       outcome_of (request c baseUrl endpoint options) w
       = Threw (RateLimitError "Rate limit exceeded" (JNum 60)))
      /\ (forall v, header = Some v -> numeric v = true ->
            (decimal_value v < 2 ^ 53)%Z ->
            outcome_of (request c baseUrl endpoint options) w
            = Threw (RateLimitError "Rate limit exceeded"
                       (JNum (decimal_value v)))))
  /\ (forall endpoint data useProjectToken,
        outcome_of (requestIngestion c endpoint data useProjectToken) w
        = Threw (RateLimitError "Rate limit exceeded" (JNum 60)))
  /\ (forall events, truthy_opt (projectToken c) = true ->
        outcome_of (importEvents c events) w
        = Threw (RateLimitError "Rate limit exceeded" (JNum 60)))
  /\ (forall params,
        outcome_of (exportEvents c params) w
        = Threw (RateLimitError "Rate limit exceeded" (JNum 60))).
Proof.
  cbv zeta. split; [|split; [|split]].
  - intros baseUrl endpoint options.
    rewrite request_outcome, H429. cbn [Z.eqb Pos.eqb]. split.
    + intros ->. reflexivity.
    + intros v Hv Hnum _. rewrite Hv.
      assert (Hs : supplied (Some v) = Some v).
      { unfold supplied, numeric in *.
        destruct (String.eqb v EmptyString); [discriminate Hnum|reflexivity]. }
      rewrite Hs, parseInt10_numeric by exact Hnum. reflexivity.
  - intros endpoint data useProjectToken.
    rewrite requestIngestion_outcome, H429. reflexivity.
  - intros events Htok.
    rewrite importEvents_outcome, H429 by exact Htok. reflexivity.
  - intros params. rewrite exportEvents_outcome, H429. reflexivity.
Qed.

Lemma rate_limit_retry_after_witness :
  let c := mkCredentials "svc" "shh" "123" None (Some false) in
  outcome_of (request c (getMixpanelApiUrl c) "/events/names" no_options)
    (answering (mkResponse 429 [ ("retry-after", "120") ] EmptyString) 0)
  = Threw (RateLimitError "Rate limit exceeded" (JNum 120)).
Proof.
  cbv zeta.
  refine (proj2 (proj1 (rate_limit_retry_after _
            (mkResponse 429 [ ("retry-after", "120") ] EmptyString) 0 eq_refl)
            _ _ _) "120" eq_refl eq_refl _).
  vm_compute. reflexivity.
Defined.

(** ** Classification of failed responses *)

(** A server error answered to a tracked event is no error of the
    operation: it returns a status of 0. *)
Lemma track_event_reports_failure_as_result :
  let c := mkCredentials "svc" "shh" "123" (Some "tok") (Some false) in
  let params := mkTrackEventParams "Signup" "u1" None (Some 1700000000%Z) in
  let response := mkResponse 500 [] "Internal Server Error" in
  ok response = false
  /\ outcome_of (trackEvent c params) (answering response 0)
     = Returned (mkStatus 0).
Proof. cbv zeta. split; reflexivity. Qed.

(** On the import path a 401 answer is a generic API error. *)
Example import_unauthorized_is_api_error :
  let c := mkCredentials "svc" "shh" "123" (Some "tok") (Some false) in
  outcome_of (importEvents c []) (answering (mkResponse 401 [] "denied") 0)
  = Threw (ApiError "Ingestion API error: 401 - denied" (Some 401%Z)).
Proof. reflexivity. Qed.

(** C4, as the code has it.  When the service answers with a status outside
    200..299: an operation routed through [request] throws an
    authentication failure on 401 and 403 and, on every other such
    status but 429, a generic API error carrying the status and the
    body text; the event import, the raw export and the lookup-table
    upload throw a generic API error carrying the status and the body
    text (the first two on every such status but 429, 401 and 403
    included); the operations that post straight to the track, engage
    and groups endpoints throw nothing and return a status of 0. *)
Theorem failed_response_classification (c : TenantCredentials)
  (response : Response) (now : Z) (Hfail : ok response = false) :
  let w := answering response now in
  let http_status := status response in
  (forall baseUrl endpoint options,
      (http_status = 401%Z \/ http_status = 403%Z ->
       outcome_of (request c baseUrl endpoint options) w
       = Threw (AuthenticationError "Invalid credentials"))
      /\ (http_status <> 429%Z -> http_status <> 401%Z -> http_status <> 403%Z ->
          outcome_of (request c baseUrl endpoint options) w
          = Threw (ApiError ("API error: " ++ string_of_Z http_status ++ " - "
                               ++ text response) (Some http_status))))
  /\ (forall events, truthy_opt (projectToken c) = true -> http_status <> 429%Z ->
        outcome_of (importEvents c events) w
        = Threw (ApiError ("Ingestion API error: " ++ string_of_Z http_status ++ " - "
                             ++ text response) (Some http_status)))
  /\ (forall params, http_status <> 429%Z ->
        outcome_of (exportEvents c params) w
        = Threw (ApiError ("Export failed: " ++ string_of_Z http_status ++ " - "
                             ++ text response) (Some http_status)))
  /\ (forall tableName row0 rest,
        outcome_of (createOrReplaceLookupTable c tableName (row0 :: rest)) w
        = Threw (ApiError ("Failed to create lookup table: " ++ text response)
                   (Some http_status)))
  /\ (forall op, truthy_opt (projectToken c) = true -> is_direct op = true ->
        outcome_of (invoke c op) w = Returned (ResStatus (mkStatus 0))).
Proof.
  cbv zeta. split; [|split; [|split; [|split]]].
  - intros baseUrl endpoint options. rewrite request_outcome. split.
    + intros [H | H]; rewrite H; reflexivity.
    + intros H429 H401 H403.
      apply Z.eqb_neq in H429, H401, H403.
      rewrite H429, H401, H403, Hfail. reflexivity.
  - intros events Htok H429. apply Z.eqb_neq in H429.
    rewrite importEvents_outcome, H429, Hfail by exact Htok. reflexivity.
  - intros params H429. apply Z.eqb_neq in H429.
    rewrite exportEvents_outcome, H429, Hfail. reflexivity.
  - intros tableName row0 rest.
    rewrite lookup_table_outcome, Hfail. reflexivity.
  - intros op Htok Hop.
    destruct (direct_operation_outcome c op response now Htok Hop) as [-> _].
    unfold status_of. rewrite Hfail. reflexivity.
Qed.

Lemma failed_response_classification_witness :
  let c := mkCredentials "svc" "shh" "123" None (Some false) in
  outcome_of (request c (getMixpanelApiUrl c) "/events/names" no_options)
    (answering (mkResponse 403 [] "forbidden") 0)
  = Threw (AuthenticationError "Invalid credentials").
Proof.
  cbv zeta.
  refine (proj1 (proj1 (failed_response_classification _
            (mkResponse 403 [] "forbidden") 0 eq_refl) _ _ _) _).
  right. reflexivity.
Defined.

(** ** The insights query *)

(** C7.  With credentials of username svc, secret shh and project id
    123, not EU-resident, a query for insights from 2024-01-01 to
    2024-01-31 on the event Signup makes one call: to the standard query
    base URL, at /insights, with the query parameters project_id=123,
    from_date=2024-01-01, to_date=2024-01-31 and event=["Signup"] in
    that order (percent-encoded in the address), and with an
    Authorization header of Basic followed by the base64 text of
    svc:shh. *)
Theorem query_insights_scenario (token : option string) (eu : option bool)
  (w : World) (Hstandard : eu <> Some true) :
  let credentials := mkCredentials "svc" "shh" "123" token eu in
  let params :=
    mkInsightsParams "2024-01-01" "2024-01-31" (Some "Signup") None None None in
  let query :=
    "project_id=123&from_date=2024-01-01&to_date=2024-01-31&event=%5B%22Signup%22%5D" in
  calls_of (queryInsights credentials params) w
  = [ {| url := base_url false Query ++ "/insights?" ++ query;
         method := None;
         headers := [ ("Authorization", "Basic " ++ btoa "svc:shh");
                      ("Content-Type", "application/json");
                      ("Accept", "application/json") ];
         body := None |} ]
  /\ parse_query query
     = [ ("project_id", "123"); ("from_date", "2024-01-01");
         ("to_date", "2024-01-31"); ("event", "[" ++ DQ ++ "Signup" ++ DQ ++ "]") ]
  /\ btoa "svc:shh" = "c3ZjOnNoaA==".
Proof.
  cbv zeta. split; [|split; reflexivity].
  unfold calls_of, queryInsights. rewrite request_calls.
  destruct eu as [[|]|]; [congruence| |]; reflexivity.
Qed.

Lemma query_insights_scenario_witness :
  exists call,
    calls_of (queryInsights (mkCredentials "svc" "shh" "123" None (Some false))
                (mkInsightsParams "2024-01-01" "2024-01-31" (Some "Signup")
                   None None None))
      (answering (mkResponse 200 [] "{}") 0) = [call]
    /\ obj_get (headers call) "Authorization" = Some "Basic c3ZjOnNoaA==".
Proof.
  eexists. split.
  - refine (proj1 (query_insights_scenario None (Some false) _ _)).
    discriminate.
  - reflexivity.
Defined.

(** ** Profile and group mutations *)

Lemma append_assoc (a b c : string) : (a ++ b) ++ c = a ++ b ++ c.
Proof.
  induction a as [|ch a IH]; cbn; [reflexivity | now rewrite IH].
Qed.

Lemma json_escape_plain (s : string) :
  json_plain s = true -> json_escape s = s.
Proof.
  induction s as [|ch s IH]; [reflexivity|].
  cbn [json_plain json_escape]. intros H.
  apply andb_prop in H. destruct H as [H Hs].
  rewrite (IH Hs). clear IH Hs.
  destruct ch as [b0 b1 b2 b3 b4 b5 b6 b7].
  destruct b0, b1, b2, b3, b4, b5, b6, b7;
    try discriminate H; reflexivity.
Qed.

Lemma obj_literal_single {A} (k : string) (v : A) :
  obj_literal [ (k, v) ] = [ (k, v) ].
Proof.
  unfold obj_literal, obj_assign, obj_set. cbn.
  destruct (array_index k); reflexivity.
Qed.

(** C8.  With a project token in the credentials, setting the profile
    properties plan = pro of the profile u1 makes exactly one HTTP call,
    whose body is the JSON text of the one-element array holding the
    object with $token (the token), $distinct_id (u1) and $set (the
    object with plan = pro), in that order; and every profile mutation
    makes exactly one call whose body is the JSON text of the
    one-element array holding the envelope of $token, $distinct_id and
    one operation key with its payload, the key being one of $set,
    $set_once, $add, $append, $remove, $union, $unset and $delete (and
    every group mutation the same with $group_key and $group_id). *)
Theorem profile_mutation_envelope (c : TenantCredentials) (token : string)
  (w : World)
  (Htoken : projectToken c = Some token) (Hnonempty : token <> EmptyString) :
  calls_of (setProfileProperties c "u1" [ ("plan", JString "pro") ]) w
  = [ {| url := getIngestionApiUrl c ++ "/engage";
         method := Some "POST";
         headers := [ ("Content-Type", "application/json") ];
         body := Some ("[{" ++ quoted "$token" ++ ":" ++ json_quote token ++ ","
                         ++ quoted "$distinct_id" ++ ":" ++ quoted "u1" ++ ","
                         ++ quoted "$set" ++ ":{" ++ quoted "plan" ++ ":"
                         ++ quoted "pro" ++ "}}]") |} ]
  /\ (json_plain token = true -> json_quote token = quoted token)
  /\ (forall op d k payload,
        profile_mutation op = Some (d, k, payload) ->
        In k operation_keys
        /\ calls_of (invoke c op) w
           = [ post_json c "/engage"
                 (JArray [ JObject [ ("$token", JString token);
                                     ("$distinct_id", JString d);
                                     (k, payload) ] ]) ])
  /\ (forall op gk gid k payload,
        group_mutation op = Some (gk, gid, k, payload) ->
        In k operation_keys
        /\ calls_of (invoke c op) w
           = [ post_json c "/groups"
                 (JArray [ JObject [ ("$token", JString token);
                                     ("$group_key", JString gk);
                                     ("$group_id", JString gid);
                                     (k, payload) ] ]) ]).
Proof.
  assert (Htruthy : truthy_opt (projectToken c) = true).
  { rewrite Htoken. cbn. apply truthy_string_true. exact Hnonempty. }
  split; [|split; [|split]].
  - unfold calls_of, run, setProfileProperties, engageRequest.
    rewrite Htruthy, Htoken. cbn.
    unfold post_json, json_quote, quoted, DQ. cbn.
    rewrite !append_assoc. reflexivity.
  - intros Hplain. unfold json_quote, quoted.
    rewrite json_escape_plain by exact Hplain. reflexivity.
  - intros op d k payload Hop.
    destruct op; try discriminate Hop; injection Hop as <- <- <-;
      (split; [cbn; tauto|]);
      unfold_method; rewrite ?obj_literal_single;
      unfold calls_of, run; rewrite Htruthy, Htoken; reflexivity.
  - intros op gk gid k payload Hop.
    destruct op; try discriminate Hop; injection Hop as <- <- <- <-;
      (split; [cbn; tauto|]);
      unfold_method; unfold calls_of, run; rewrite Htruthy, Htoken;
      reflexivity.
Qed.

Lemma profile_mutation_envelope_witness :
  calls_of (setProfileProperties
              (mkCredentials "svc" "shh" "123" (Some "tok") (Some false))
              "u1" [ ("plan", JString "pro") ])
    (answering (mkResponse 200 [] "1") 0)
  = [ {| url := "https://api.mixpanel.com/engage";
         method := Some "POST";
         headers := [ ("Content-Type", "application/json") ];
         body := Some ("[{" ++ quoted "$token" ++ ":" ++ quoted "tok" ++ ","
                         ++ quoted "$distinct_id" ++ ":" ++ quoted "u1" ++ ","
                         ++ quoted "$set" ++ ":{" ++ quoted "plan" ++ ":"
                         ++ quoted "pro" ++ "}}]") |} ].
Proof.
  refine (proj1 (profile_mutation_envelope
                   (mkCredentials "svc" "shh" "123" (Some "tok") (Some false))
                   "tok" _ eq_refl _)).
  discriminate.
Defined.

(** ** Lookup tables *)

Lemma existsb_eqb_false (keys : list string) (k h : string) :
  existsb (String.eqb k) keys = false -> In h keys -> String.eqb k h = false.
Proof.
  induction keys as [|k' keys IH]; cbn; [tauto|].
  intros H [-> | Hin]; apply orb_false_elim in H; destruct H as [H1 H2];
    [exact H1 | exact (IH H2 Hin)].
Qed.

Lemma obj_get_restrict_to (keys : list string) (row : obj json) (h : string) :
  In h keys -> obj_get (restrict_to keys row) h = obj_get row h.
Proof.
  intros Hin. induction row as [|[k v] row IH]; [reflexivity|].
  cbn [restrict_to filter fst obj_get].
  destruct (existsb (String.eqb k) keys) eqn:Hk.
  - cbn [obj_get]. destruct (String.eqb k h); [reflexivity | exact IH].
  - rewrite (existsb_eqb_false keys k h Hk Hin). exact IH.
Qed.

Lemma csv_cell_restrict_to (keys : list string) (row : obj json) (h : string) :
  In h keys -> csv_cell (restrict_to keys row) h = csv_cell row h.
Proof.
  intros Hin. unfold csv_cell. rewrite obj_get_restrict_to by exact Hin.
  reflexivity.
Qed.

Example later_keys_are_dropped :
  csv_content [ ("a", JNumber 1) ]
    [ [ ("a", JNumber 1) ]; [ ("a", JNull); ("b", JNumber 3) ];
      [ ("b", JNumber 4) ] ]
  = "a" ++ NL ++ "1" ++ NL ++ NL.
Proof. reflexivity. Qed.

(** C10.  An upload of an empty table fails with the error Lookup table
    data cannot be empty before any HTTP call; an upload of a non-empty
    table makes one call carrying the CSV text, in which the keys that
    appear only in rows after the first leave no trace (the text is that
    of the table whose later rows are cut down to the keys of the first),
    and in which a value that is null or not there is written as the
    empty string. *)
Theorem lookup_table_upload (c : TenantCredentials) (tableName : string)
  (w : World) :
  run (createOrReplaceLookupTable c tableName []) w
  = ([], Threw (ApiError "Lookup table data cannot be empty" None))
  /\ (forall row0 rest,
        exists call,
          calls_of (createOrReplaceLookupTable c tableName (row0 :: rest)) w
          = [call]
          /\ body call = Some (csv_content row0 (row0 :: rest)))
  /\ (forall row0 rest,
        csv_content row0 (row0 :: rest)
        = csv_content row0 (row0 :: map (restrict_to (obj_keys row0)) rest))
  /\ (forall row h,
        obj_get row h = None \/ obj_get row h = Some JNull ->
        csv_cell row h = EmptyString).
Proof.
  split; [reflexivity|]. split; [|split].
  - intros row0 rest. eexists. split.
    + unfold calls_of, run, createOrReplaceLookupTable, bind, fetch, throw, ret.
      cbn. destruct (negb (ok _)); reflexivity.
    + reflexivity.
  - intros row0 rest. unfold csv_content. do 2 f_equal.
    cbn [map]. f_equal. rewrite map_map.
    apply map_ext. intros row. f_equal.
    apply map_ext_in. intros h Hin. symmetry.
    apply csv_cell_restrict_to. exact Hin.
  - intros row h [H | H]; unfold csv_cell; rewrite H; reflexivity.
Qed.

Lemma lookup_table_upload_witness :
  csv_cell [ ("id", JNumber 7); ("note", JNull) ] "note" = EmptyString
  /\ csv_cell [ ("id", JNumber 7); ("note", JNull) ] "plan" = EmptyString.
Proof.
  pose proof (lookup_table_upload
                (mkCredentials "svc" "shh" "123" None (Some false)) "plans"
                (answering (mkResponse 200 [] "ok") 0)) as (_ & _ & _ & Hcell).
  split; apply Hcell; [right | left]; reflexivity.
Defined.

(** ** The CSV text read back *)

(** C6.  The specification asks that the CSV text of every non-empty
    table reads back, through a standard CSV reader, to the values that
    were written.  The writer quotes the values and not the column names: for
    the one-row table whose only column is named by a double quote
    followed by k, with value v, the text is that name, a line feed and
    v; the quote opens a quoted field that nothing closes, and the text
    does not read back to the table. *)
Theorem csv_column_name_is_not_quoted :
  let row : obj json := [ (DQ ++ "k", JString "v") ] in
  csv_content row [ row ] = DQ ++ "k" ++ NL ++ "v"
  /\ table_of row [ row ] = [ [ DQ ++ "k" ]; [ "v" ] ]
  /\ parse_csv (csv_content row [ row ]) = None
  /\ parse_csv (csv_content row [ row ]) <> Some (table_of row [ row ]).
Proof.
  cbv zeta. repeat split; try reflexivity. vm_compute. discriminate.
Qed.

(** A comma in a column name splits the header record in two. *)
Example csv_column_name_with_comma :
  let row : obj json := [ ("a,b", JString "v") ] in
  parse_csv (csv_content row [ row ]) = Some [ [ "a"; "b" ]; [ "v" ] ]
  /\ table_of row [ row ] = [ [ "a,b" ]; [ "v" ] ].
Proof. split; reflexivity. Qed.

(** Values with commas, quotes and line feeds under plain column names
    read back as they were. *)
Example csv_values_read_back :
  let row1 : obj json :=
    [ ("id", JNumber 1); ("note", JString ("a,b" ++ DQ ++ "c" ++ NL ++ "d")) ] in
  let row2 : obj json := [ ("id", JNull); ("extra", JBool true) ] in
  parse_csv (csv_content row1 [ row1; row2 ])
  = Some [ [ "id"; "note" ];
           [ "1"; "a,b" ++ DQ ++ "c" ++ NL ++ "d" ];
           [ EmptyString; EmptyString ] ].
Proof. reflexivity. Qed.

(** *** The reader on what the writer writes *)









Lemma append_empty (v : string) : v ++ EmptyString = v.
Proof.
  induction v as [|ch v IH]; cbn; [reflexivity | now rewrite IH].
Qed.





(** ** Residency and base URLs *)

(** The selection on any credential set, parsed or not. *)
Lemma base_urls_of_flag (credentials : TenantCredentials) :
  let eu := match euResident credentials with Some true => true | _ => false end in
  getMixpanelApiUrl credentials = base_url eu Query
  /\ getIngestionApiUrl credentials = base_url eu Ingestion
  /\ getDataApiUrl credentials = base_url eu DataExport
  /\ getAppApiUrl credentials = base_url eu App.
Proof.
  unfold getMixpanelApiUrl, getIngestionApiUrl, getDataApiUrl, getAppApiUrl.
  destruct (euResident credentials) as [[|]|]; cbn; repeat split; reflexivity.
Qed.


Lemma base_url_of_flag_set (c : TenantCredentials) :
  getMixpanelApiUrl c = base_url (flag_set (euResident c)) Query
  /\ getIngestionApiUrl c = base_url (flag_set (euResident c)) Ingestion
  /\ getDataApiUrl c = base_url (flag_set (euResident c)) DataExport
  /\ getAppApiUrl c = base_url (flag_set (euResident c)) App.
Proof.
  unfold getMixpanelApiUrl, getIngestionApiUrl, getDataApiUrl, getAppApiUrl.
  destruct (flag_set (euResident c)); repeat split; reflexivity.
Qed.

Lemma requestIngestion_calls (c : TenantCredentials) (endpoint : string)
  (data : json) (useProjectToken : bool) (w : World) :
  exists call,
    fst (run (requestIngestion c endpoint data useProjectToken) w) = [call]
    /\ url call = getIngestionApiUrl c ++ endpoint.
Proof.
  unfold run, requestIngestion, bind, fetch, throw, ret.
  destruct useProjectToken; cbn; eexists; split.
  1, 3: split_tests; reflexivity.
  all: reflexivity.
Qed.

(** Every call of an ingestion-class operation goes to the base URL its
    surface has under the credentials' residency flag. *)
Lemma ingestion_calls_target_surface (c : TenantCredentials)
  (op : IngestionOp) (w : World) (call : FetchCall) :
  In call (calls_of (invoke c op) w) ->
  String.prefix (base_url (flag_set (euResident c)) (surface_of op)) (url call)
  = true.
Proof.
  destruct (base_url_of_flag_set c) as (_ & Hing & _ & Happ).
  destruct (is_gdpr op) eqn:Hop.
  - destruct (gdpr_calls_once c op w Hop) as (call' & -> & Hprefix).
    intros [<- | []]. unfold surface_of. rewrite Hop, <- Happ. exact Hprefix.
  - unfold surface_of. rewrite Hop, <- Hing.
    destruct op; try discriminate Hop;
      unfold_method; unfold calls_of;
      destruct (truthy_opt (projectToken c)); cbn [negb];
      try (intros []; fail);
      try (intros [<- | []]; apply prefix_app).
    rewrite run_bind_fst.
    destruct (requestIngestion_calls c "/import"
                (JArray (map (fun e => JObject (obj_literal
                   [ ("event", JString (ev_event e));
                     ("properties",
                      JObject (obj_assign (ev_properties e)
                        [ ("token", JString (narrowed (projectToken c))) ])) ]))
                   events)) true w) as (call' & -> & Hurl).
    intros [<- | []]. rewrite Hurl. apply prefix_app.
Qed.

(** C2.  For every inbound request, [euResident] is true exactly when the
    value of the X-Mixpanel-EU-Resident header equals the string true
    whatever the case of its letters, and false for every other value and
    for an absent header; and each of the four surfaces (query, ingestion,
    data export, app) then takes its EU base URL when the flag is true and
    its standard base URL otherwise; so that every call the client built
    from these credentials makes (an insights query, a raw export, a
    lookup-table upload, any ingestion-class operation) goes to the base
    URL its surface has under that flag. *)
Theorem eu_flag_selects_base_urls (request : Request) :
  let credentials := parseTenantCredentials request in
  let eu :=
    flag_of_header (Headers_get (req_headers request) "X-Mixpanel-EU-Resident") in
  euResident credentials = Some eu
  /\ getMixpanelApiUrl credentials = base_url eu Query
  /\ getIngestionApiUrl credentials = base_url eu Ingestion
  /\ getDataApiUrl credentials = base_url eu DataExport
  /\ getAppApiUrl credentials = base_url eu App
  /\ forall (w : World) (call : FetchCall),
       (forall params, In call (calls_of (queryInsights credentials params) w) ->
          String.prefix (base_url eu Query) (url call) = true)
       /\ (forall params, In call (calls_of (exportEvents credentials params) w) ->
             String.prefix (base_url eu DataExport) (url call) = true)
       /\ (forall tableName data,
             In call (calls_of (createOrReplaceLookupTable credentials tableName data) w) ->
             String.prefix (base_url eu Ingestion) (url call) = true)
       /\ (forall op, In call (calls_of (invoke credentials op) w) ->
             String.prefix (base_url eu (surface_of op)) (url call) = true).
Proof.
  cbv zeta.
  set (credentials := parseTenantCredentials request).
  assert (Hflag : flag_set (euResident credentials)
                  = flag_of_header
                      (Headers_get (req_headers request) "X-Mixpanel-EU-Resident")).
  { subst credentials. cbn [parseTenantCredentials euResident flag_set].
    apply is_true_flag_spec. }
  destruct (base_url_of_flag_set credentials) as (Hq & Hi & Hd & Ha).
  rewrite Hflag in Hq, Hi, Hd, Ha.
  split; [|split; [exact Hq|split; [exact Hi|split; [exact Hd|split; [exact Ha|]]]]].
  { subst credentials. cbn [parseTenantCredentials euResident].
    rewrite is_true_flag_spec. reflexivity. }
  intros w call. split; [|split; [|split]].
  - intros params. unfold calls_of, queryInsights. rewrite request_calls.
    intros [<- | []]. cbn [url request_call]. rewrite Hq. apply prefix_app.
  - intros params. rewrite <- Hd.
    unfold calls_of, run, exportEvents, bind, fetch, throw, ret. cbn.
    split_tests; intros [<- | []]; apply prefix_app.
  - intros tableName data. rewrite <- Hi.
    destruct data as [|row0 rest]; [intros []|].
    unfold calls_of, run, createOrReplaceLookupTable, bind, fetch, throw, ret.
    cbn. destruct (negb (ok _)); intros [<- | []]; apply prefix_app.
  - intros op Hin. rewrite <- Hflag.
    apply (ingestion_calls_target_surface credentials op w call Hin).
Qed.


Lemma eu_flag_selects_base_urls_witness :
  let request :=
    mkRequest "/mcp" "POST"
      [ ("X-Mixpanel-Service-Account-Username", "svc");
        ("X-Mixpanel-Service-Account-Secret", "shh");
        ("X-Mixpanel-Project-Id", "123");
        ("X-Mixpanel-Project-Token", "tok");
        ("X-Mixpanel-EU-Resident", "True") ] in
  let credentials := parseTenantCredentials request in
  let call :=
    post_json credentials "/engage"
      (JArray [ JObject [ ("$token", JString "tok");
                          ("$distinct_id", JString "u1");
                          ("$delete", JString EmptyString) ] ]) in
  In call (calls_of (invoke credentials (OpDeleteProfile "u1"))
             (answering (mkResponse 200 [] "1") 0))
  /\ String.prefix "https://api-eu.mixpanel.com" (url call) = true.
Proof.
  cbv zeta.
  pose proof (eu_flag_selects_base_urls
                (mkRequest "/mcp" "POST"
                   [ ("X-Mixpanel-Service-Account-Username", "svc");
                     ("X-Mixpanel-Service-Account-Secret", "shh");
                     ("X-Mixpanel-Project-Id", "123");
                     ("X-Mixpanel-Project-Token", "tok");
                     ("X-Mixpanel-EU-Resident", "True") ])) as H.
  cbv zeta in H. destruct H as (_ & _ & _ & _ & _ & H).
  assert (Hin : forall A (x : A), In x [x]) by (intros; left; reflexivity).
  split; [apply Hin|].
  refine (proj2 (proj2 (proj2 (H (answering (mkResponse 200 [] "1") 0) _)))
            (OpDeleteProfile "u1") (Hin _ _)).
Defined.

End ClientProperties.

(* ================================================================== *)
(** * Further properties: configuration, routing and responses *)
(* ================================================================== *)

Section Configuration.
Import Js Http Errors Async Env Client Worker Reference.

(** ** Numbers of the environment *)

(** X1.  [getEnvNumber] never hands back a failed conversion: given a
    numeric default it always returns a number.  It returns the number a
    variable writes when the variable is a run of decimal digits (below
    2^53), and the default when the key holds no string or a string that
    does not start with a number. *)
Theorem getEnvNumber_is_a_number (env : WorkerEnv) (key : EnvKey) (d : Z) :
  (exists z, getEnvNumber env key (JNum d) = JNum z)
  /\ (forall v, env_get env key = EnvString v -> numeric v = true ->
        (decimal_value v < 2 ^ 53)%Z ->
        getEnvNumber env key (JNum d) = JNum (decimal_value v))
  /\ (forall v, env_get env key = EnvString v -> parseInt10 v = JNaN ->
        getEnvNumber env key (JNum d) = JNum d)
  /\ ((forall v, env_get env key <> EnvString v) ->
        getEnvNumber env key (JNum d) = JNum d).
Proof.
  unfold getEnvNumber. repeat split.
  - destruct (env_get env key) as [v| |]; try (eexists; reflexivity).
    destruct (parseInt10 v); eexists; reflexivity.
  - intros v -> Hnum _. rewrite parseInt10_numeric by exact Hnum. reflexivity.
  - intros v -> ->. reflexivity.
  - intros H. destruct (env_get env key) as [v| |]; try reflexivity.
    destruct (H v eq_refl).
Qed.

Lemma getEnvNumber_is_a_number_witness :
  getCharacterLimit (mkWorkerEnv (Some "12000") None None false false false)
  = JNum 12000
  /\ getMaxPageSize (mkWorkerEnv (Some "12000") None (Some "many") true false false)
     = JNum 100.
Proof.
  split.
  - refine (proj1 (proj2 (getEnvNumber_is_a_number
              (mkWorkerEnv (Some "12000") None None false false false)
              KCharacterLimit 50000))
              "12000" eq_refl eq_refl _).
    vm_compute. reflexivity.
  - exact (proj1 (proj2 (proj2 (getEnvNumber_is_a_number
             (mkWorkerEnv (Some "12000") None (Some "many") true false false)
             KMaxPageSize 100))) "many" eq_refl eq_refl).
Defined.

(** ** Routing *)

(** X2.  The worker hands a request to the MCP handler exactly when it
    is a POST to /mcp whose credentials pass validation, and then with
    the credentials parsed from its headers; every other request (the
    health check, the SSE address, any other path or method, missing
    credentials) is answered without any outbound call. *)
Theorem handler_serves_only_valid_mcp_posts (A : Type) (request : Request)
  (serve : TenantCredentials -> Async A) (w : World) :
  let credentials := parseTenantCredentials request in
  let accepted :=
    (String.eqb (pathname request) "/mcp"
     && String.eqb (req_method request) "POST"
     && match validateCredentials credentials with
        | None => true
        | Some _ => false
        end)%bool in
  calls_of (fetch_handler request serve) w
  = (if accepted then calls_of (serve credentials) w else [])
  /\ (accepted = false ->
      exists reply,
        outcome_of (fetch_handler request serve) w = Returned reply
        /\ forall a, reply <> Served a)
  /\ (accepted = true ->
      outcome_of (fetch_handler request serve) w
      = match outcome_of (serve credentials) w with
        | Threw e => Threw e
        | Returned a => Returned (Served a)
        end).
Proof.
  cbv zeta. unfold calls_of, outcome_of, fetch_handler.
  destruct (String.eqb (pathname request) "/health") eqn:Hhealth.
  { apply String.eqb_eq in Hhealth. rewrite Hhealth. cbn.
    split; [reflexivity|]. split; [|discriminate].
    intros _. eexists. split; [reflexivity | discriminate]. }
  destruct (String.eqb (pathname request) "/mcp"
            && String.eqb (req_method request) "POST")%bool eqn:Hmcp;
    cbn [andb].
  - destruct (validateCredentials (parseTenantCredentials request)) as [e|].
    + cbn. split; [reflexivity|]. split; [|discriminate].
      intros _. eexists. split; [reflexivity | discriminate].
    + rewrite run_bind_fst, run_bind_snd.
      split; [reflexivity|]. split; [discriminate | reflexivity].
  - destruct (String.eqb (pathname request) "/sse"); cbn;
      (split; [reflexivity|]); (split; [|discriminate]);
      intros _; eexists; (split; [reflexivity | discriminate]).
Qed.

Lemma handler_serves_only_valid_mcp_posts_witness :
  exists reply,
    outcome_of (fetch_handler
                  (mkRequest "/mcp" "GET"
                     [ ("X-Mixpanel-Service-Account-Username", "svc");
                       ("X-Mixpanel-Service-Account-Secret", "shh");
                       ("X-Mixpanel-Project-Id", "123") ])
                  (fun c => listFunnels c))
      (answering (mkResponse 200 [] "[]") 0)
    = Returned reply
    /\ forall a, reply <> Served a.
Proof.
  exact (proj1 (proj2 (handler_serves_only_valid_mcp_posts Payload
           (mkRequest "/mcp" "GET"
              [ ("X-Mixpanel-Service-Account-Username", "svc");
                ("X-Mixpanel-Service-Account-Secret", "shh");
                ("X-Mixpanel-Project-Id", "123") ])
           (fun c => listFunnels c)
           (answering (mkResponse 200 [] "[]") 0))) eq_refl).
Defined.

End Configuration.

Section Responses.
Import Js Http Errors Async Env Client Worker Reference.






Lemma ingestion_requires_token_witness :
  exists e,
    run (invoke (mkCredentials "svc" "shh" "123" (Some EmptyString) None)
           (OpMergeIdentities "u1" "u2"))
      (answering (mkResponse 200 [] "1") 0)
    = ([], Threw e)
    /\ token_required e.
Proof.
  exact (ingestion_requires_token
           (mkCredentials "svc" "shh" "123" (Some EmptyString) None)
           (OpMergeIdentities "u1" "u2")
           (answering (mkResponse 200 [] "1") 0) eq_refl eq_refl).
Defined.

(** X6.  With a project token, an operation that posts straight to the
    track, engage or groups endpoint makes exactly one call and never
    throws: it returns a status that is 1 exactly when the response
    status is in 200..299, and 0 otherwise. *)
Theorem direct_operation_reports_status (c : TenantCredentials)
  (op : IngestionOp) (response : Response) (now : Z)
  (Htoken : truthy_opt (projectToken c) = true)
  (Hdirect : is_direct op = true) :
  let w := answering response now in
  length (calls_of (invoke c op) w) = 1%nat
  /\ exists r,
       outcome_of (invoke c op) w = Returned (ResStatus r)
       /\ (result_status r = 1%Z \/ result_status r = 0%Z)
       /\ (result_status r = 1%Z <-> ok response = true).
Proof.
  cbv zeta.
  destruct (direct_operation_outcome c op response now Htoken Hdirect)
    as [Hout Hcalls].
  split; [exact Hcalls|].
  exists (status_of response). split; [exact Hout|].
  unfold status_of. destruct (ok response); cbn; split; auto;
    split; congruence.
Qed.

Lemma direct_operation_reports_status_witness :
  outcome_of (invoke (mkCredentials "svc" "shh" "123" (Some "tok") None)
                (OpCreateAlias "u1" "alias"))
    (answering (mkResponse 204 [] EmptyString) 0)
  = Returned (ResStatus (mkStatus 1)).
Proof.
  destruct (direct_operation_reports_status
              (mkCredentials "svc" "shh" "123" (Some "tok") None)
              (OpCreateAlias "u1" "alias")
              (mkResponse 204 [] EmptyString) 0 eq_refl eq_refl)
    as (_ & r & Hout & _ & Hr).
  rewrite Hout. do 2 f_equal.
  destruct r as [n]. cbn in Hr. f_equal. apply Hr. reflexivity.
Defined.

(** X7.  The ingestion-class operations other than the GDPR requests
    never send the service-account credentials: every call they make is
    a POST of JSON without an Authorization header (the project token
    travels in the body). *)
Theorem ingestion_calls_carry_no_authorization (c : TenantCredentials)
  (op : IngestionOp) (w : World) (call : FetchCall)
  (Hop : is_gdpr op = false)
  (Hcall : In call (calls_of (invoke c op) w)) :
  obj_get (headers call) "Authorization" = None
  /\ method call = Some "POST"
  /\ obj_get (headers call) "Content-Type" = Some "application/json".
Proof.
  revert Hcall.
  destruct op; try discriminate Hop; unfold_method; unfold calls_of;
    destruct (truthy_opt (projectToken c)); cbn [negb];
    try (intros []; fail);
    try (intros [<- | []]; repeat split; reflexivity).
  rewrite run_bind_fst.
  unfold run, requestIngestion, bind, fetch, throw, ret. cbn.
  split_tests; intros [<- | []]; repeat split; reflexivity.
Qed.

Lemma ingestion_calls_carry_no_authorization_witness :
  let c := mkCredentials "svc" "shh" "123" (Some "tok") None in
  let call :=
    {| url := "https://api.mixpanel.com/import";
       method := Some "POST";
       headers := [ ("Content-Type", "application/json");
                    ("Accept", "application/json") ];
       body := Some "[]" |} in
  In call (calls_of (invoke c (OpImportEvents []))
             (answering (mkResponse 200 [] "{}") 0))
  /\ obj_get (headers call) "Authorization" = None.
Proof.
  cbv zeta.
  assert (Hin : forall A (x : A), In x [x]) by (intros; left; reflexivity).
  split; [apply Hin|].
  exact (proj1 (ingestion_calls_carry_no_authorization
                  (mkCredentials "svc" "shh" "123" (Some "tok") None)
                  (OpImportEvents [])
                  (answering (mkResponse 200 [] "{}") 0) _ eq_refl (Hin _ _))).
Defined.

End Responses.

(* ================================================================== *)
(** * Further properties: event payloads *)
(* ================================================================== *)

Section Payloads.
Import Js Http Errors Async Env Client Worker Reference.

(** ** Reading an object after writing it *)

Lemma obj_get_replace {A} (o : obj A) (k k' : string) (v : A) :
  obj_get o k <> None ->
  obj_get (obj_replace o k v) k'
  = if String.eqb k k' then Some v else obj_get o k'.
Proof.
  induction o as [|[k0 v0] o IH]; cbn [obj_get obj_replace]; [congruence|].
  intros H. destruct (String.eqb k0 k) eqn:Hk0.
  - apply String.eqb_eq in Hk0. subst k0. cbn [obj_get].
    destruct (String.eqb k k'); reflexivity.
  - cbn [obj_get]. rewrite (IH H).
    destruct (String.eqb k0 k') eqn:Hk0'; [|reflexivity].
    apply String.eqb_eq in Hk0'. subst k0.
    rewrite String.eqb_sym, Hk0. reflexivity.
Qed.

Lemma obj_get_insert_index {A} (o : obj A) (n : N) (k k' : string) (v : A) :
  obj_get o k = None ->
  obj_get (obj_insert_index o n k v) k'
  = if String.eqb k k' then Some v else obj_get o k'.
Proof.
  induction o as [|[k0 v0] o IH]; cbn [obj_get obj_insert_index];
    [reflexivity|].
  destruct (String.eqb k0 k) eqn:Hk0; [discriminate|]. intros H.
  assert (Hstep : obj_get ((k0, v0) :: obj_insert_index o n k v) k'
                  = if String.eqb k k' then Some v
                    else if String.eqb k0 k' then Some v0 else obj_get o k').
  { cbn [obj_get]. rewrite (IH H).
    destruct (String.eqb k0 k') eqn:Hk0'; [|reflexivity].
    apply String.eqb_eq in Hk0'. subst k0.
    rewrite String.eqb_sym, Hk0. reflexivity. }
  destruct (array_index k0) as [m|]; [destruct (N.ltb m n)|];
    try exact Hstep; reflexivity.
Qed.

Lemma obj_get_app {A} (o : obj A) (k k' : string) (v : A) :
  obj_get (o ++ [(k, v)])%list k'
  = match obj_get o k' with
    | Some x => Some x
    | None => if String.eqb k k' then Some v else None
    end.
Proof.
  induction o as [|[k0 v0] o IH]; cbn [app obj_get]; [reflexivity|].
  destruct (String.eqb k0 k'); [reflexivity | exact IH].
Qed.

(** A property that was set reads back; the others are as they were. *)
Lemma obj_get_set {A} (o : obj A) (k k' : string) (v : A) :
  obj_get (obj_set o k v) k'
  = if String.eqb k k' then Some v else obj_get o k'.
Proof.
  unfold obj_set. destruct (obj_get o k) as [x|] eqn:Hk.
  - apply obj_get_replace. congruence.
  - destruct (array_index k) as [n|].
    + apply obj_get_insert_index, Hk.
    + rewrite obj_get_app.
      destruct (String.eqb k k') eqn:Hkk.
      * apply String.eqb_eq in Hkk. subst k'. rewrite Hk. reflexivity.
      * destruct (obj_get o k'); reflexivity.
Qed.

(** In a spread, the later properties win. *)
Lemma obj_get_assign_rev {A} (base extra : obj A) (k : string) :
  obj_get (obj_assign base extra) k
  = match obj_get (rev extra) k with
    | Some v => Some v
    | None => obj_get base k
    end.
Proof.
  unfold obj_assign. revert base.
  induction extra as [|[k0 v0] extra IH]; intros base; [reflexivity|].
  cbn [fold_left rev fst snd]. rewrite IH, obj_get_app, obj_get_set.
  destruct (obj_get (rev extra) k); [reflexivity|].
  destruct (String.eqb k0 k); reflexivity.
Qed.

Lemma obj_get_absent {A} (o : obj A) (k : string) :
  ~ In k (obj_keys o) -> obj_get o k = None.
Proof.
  induction o as [|[k0 v0] o IH]; cbn; [reflexivity|].
  intros H. destruct (String.eqb k0 k) eqn:Hk.
  - apply String.eqb_eq in Hk. tauto.
  - apply IH. tauto.
Qed.

Lemma obj_get_rev {A} (o : obj A) (k : string) :
  NoDup (obj_keys o) -> obj_get (rev o) k = obj_get o k.
Proof.
  induction o as [|[k0 v0] o IH]; [reflexivity|].
  cbn [obj_keys map fst]. intros H. inversion H as [|? ? Hnotin Hrest]; subst.
  cbn [rev obj_get]. rewrite obj_get_app, (IH Hrest).
  destruct (String.eqb k0 k) eqn:Hk.
  - apply String.eqb_eq in Hk. subst k0.
    rewrite (obj_get_absent o k Hnotin). reflexivity.
  - destruct (obj_get o k); reflexivity.
Qed.

(** Over an object (distinct keys), a spread reads as the spread object
    first and the base next. *)
Lemma obj_get_assign {A} (base extra : obj A) (k : string) :
  NoDup (obj_keys extra) ->
  obj_get (obj_assign base extra) k
  = match obj_get extra k with
    | Some v => Some v
    | None => obj_get base k
    end.
Proof.
  intros H. rewrite obj_get_assign_rev, obj_get_rev by exact H. reflexivity.
Qed.

(** ** Batches *)

(** X8.  With a project token, a batch of events is sent in one call
    whose body is the JSON text of an array with one item per event, in
    order, each holding the event's name and its properties, in which:
    the token is the project token whatever token property the caller
    gave; every other property of the caller is as given; and, for
    tracking, a time is always there (the caller's when it is truthy).
    The import leaves the time alone. *)
Theorem batch_items_carry_the_project_token (c : TenantCredentials)
  (token : string) (events : list EventRecord) (w : World)
  (Htoken : projectToken c = Some token) (Hnonempty : token <> EmptyString) :
  (exists items,
     calls_of (trackEvents c events) w = [ post_json c "/track" (JArray items) ]
     /\ Forall2
          (fun e item =>
             exists props,
               item = JObject [ ("event", JString (ev_event e));
                                ("properties", JObject props) ]
               /\ obj_get props "token" = Some (JString token)
               /\ (exists t, obj_get props "time" = Some t)
               /\ (forall t, obj_get (ev_properties e) "time" = Some t ->
                     truthy t = true -> obj_get props "time" = Some t)
               /\ (forall k, k <> "token" -> k <> "time" ->
                     obj_get props k = obj_get (ev_properties e) k))
          events items)
  /\ (exists items,
        calls_of (importEvents c events) w
        = [ {| url := getIngestionApiUrl c ++ "/import";
               method := Some "POST";
               headers := [ ("Content-Type", "application/json");
                            ("Accept", "application/json") ];
               body := Some (stringify (JArray items)) |} ]
        /\ Forall2
             (fun e item =>
                exists props,
                  item = JObject [ ("event", JString (ev_event e));
                                   ("properties", JObject props) ]
                  /\ obj_get props "token" = Some (JString token)
                  /\ (forall k, k <> "token" ->
                        obj_get props k = obj_get (ev_properties e) k))
             events items).
Proof.
  assert (Htruthy : truthy_opt (projectToken c) = true).
  { rewrite Htoken. cbn. apply truthy_string_true. exact Hnonempty. }
  assert (Hneq : forall k k' : string, k <> k' -> String.eqb k k' = false)
    by (intros k k' H; apply String.eqb_neq; exact H).
  split.
  - eexists. split.
    + unfold calls_of, run, trackEvents, bind, fetch, date_now, ret.
      rewrite Htruthy, Htoken. cbn [negb fst narrowed]. reflexivity.
    + induction events as [|e events IH]; cbn [map]; constructor; [|exact IH].
      eexists. split; [reflexivity|].
      unfold obj_assign. cbn [fold_left fst snd].
      split; [rewrite !obj_get_set; reflexivity|].
      split; [eexists; rewrite !obj_get_set; reflexivity|]. split.
      * intros t Ht Htruthy_t. rewrite !obj_get_set.
        unfold prop_time_or_now. rewrite Ht, Htruthy_t. reflexivity.
      * intros k Hk1 Hk2. rewrite !obj_get_set.
        rewrite (Hneq "time" k), (Hneq "token" k) by congruence. reflexivity.
  - eexists. split.
    + unfold calls_of, importEvents. rewrite Htruthy, Htoken.
      cbn [negb narrowed].
      unfold run, requestIngestion, bind, fetch, throw, ret. cbn.
      split_tests; reflexivity.
    + induction events as [|e events IH]; cbn [map]; constructor; [|exact IH].
      eexists. split; [reflexivity|].
      unfold obj_assign. cbn [fold_left fst snd].
      split; [rewrite !obj_get_set; reflexivity|].
      intros k Hk. rewrite !obj_get_set.
      rewrite (Hneq "token" k) by congruence. reflexivity.
Qed.

Lemma batch_items_carry_the_project_token_witness :
  calls_of (trackEvents (mkCredentials "svc" "shh" "123" (Some "tok") None)
              [ mkEvent "Signup"
                  [ ("distinct_id", JString "u1"); ("token", JString "other") ] ])
    (answering (mkResponse 200 [] "1") 5000)
  = [ post_json (mkCredentials "svc" "shh" "123" (Some "tok") None) "/track"
        (JArray
           [ JObject
               [ ("event", JString "Signup");
                 ("properties",
                  JObject [ ("distinct_id", JString "u1");
                            ("token", JString "tok");
                            ("time", JNumber 5) ]) ] ]) ].
Proof.
  destruct (proj1 (batch_items_carry_the_project_token
                     (mkCredentials "svc" "shh" "123" (Some "tok") None) "tok"
                     [ mkEvent "Signup"
                         [ ("distinct_id", JString "u1");
                           ("token", JString "other") ] ]
                     (answering (mkResponse 200 [] "1") 5000) eq_refl
                     ltac:(discriminate))) as (items & Hcalls & _).
  reflexivity.
Defined.

(** ** Single events *)

(** X10.  With a project token, a tracked event is sent in one call
    whose single item holds the event's name and its properties, in
    which the properties the caller gave come first: they replace the
    distinct id, the token and the time the operation fills in, and
    these three stand only where the caller gave none. *)
Theorem tracked_event_properties_take_precedence (c : TenantCredentials)
  (token : string) (params : TrackEventParams) (w : World)
  (Htoken : projectToken c = Some token) (Hnonempty : token <> EmptyString)
  (Hobject : NoDup (obj_keys (match te_properties params with
                              | Some props => props
                              | None => []
                              end))) :
  let given := match te_properties params with
               | Some props => props
               | None => []
               end in
  let filled : obj json :=
    [ ("distinct_id", JString (te_distinctId params));
      ("token", JString token);
      ("time", JNumber (time_or_now (te_time params) (now_ms w))) ] in
  exists sent,
    calls_of (trackEvent c params) w
    = [ post_json c "/track"
          (JArray [ JObject [ ("event", JString (te_event params));
                              ("properties", JObject sent) ] ]) ]
    /\ forall k,
         obj_get sent k
         = match obj_get given k with
           | Some v => Some v
           | None => obj_get filled k
           end.
Proof.
  cbv zeta.
  assert (Htruthy : truthy_opt (projectToken c) = true).
  { rewrite Htoken. cbn. apply truthy_string_true. exact Hnonempty. }
  eexists. split.
  - unfold calls_of, run, trackEvent, bind, fetch, date_now, ret.
    rewrite Htruthy, Htoken. cbn [negb fst narrowed]. reflexivity.
  - intros k. rewrite obj_get_assign by exact Hobject. reflexivity.
Qed.

Lemma tracked_event_properties_take_precedence_witness :
  calls_of (trackEvent (mkCredentials "svc" "shh" "123" (Some "tok") None)
              (mkTrackEventParams "Signup" "u1"
                 (Some [ ("plan", JString "pro"); ("token", JString "other") ])
                 None))
    (answering (mkResponse 200 [] "1") 5000)
  = [ post_json (mkCredentials "svc" "shh" "123" (Some "tok") None) "/track"
        (JArray
           [ JObject
               [ ("event", JString "Signup");
                 ("properties",
                  JObject [ ("distinct_id", JString "u1");
                            ("token", JString "other");
                            ("time", JNumber 5);
                            ("plan", JString "pro") ]) ] ]) ].
Proof.
  assert (Hobject : NoDup (obj_keys [ ("plan", JString "pro");
                                      ("token", JString "other") ])).
  { repeat constructor; cbn; intuition discriminate. }
  destruct (tracked_event_properties_take_precedence
              (mkCredentials "svc" "shh" "123" (Some "tok") None) "tok"
              (mkTrackEventParams "Signup" "u1"
                 (Some [ ("plan", JString "pro"); ("token", JString "other") ])
                 None)
              (answering (mkResponse 200 [] "1") 5000) eq_refl
              ltac:(discriminate) Hobject) as (sent & Hcalls & _).
  reflexivity.
Defined.

End Payloads.

(* ================================================================== *)
(** * Further properties: tables and exports *)
(* ================================================================== *)

Section TablesAndExports.
Import Js Http Errors Async Env Client Worker Reference.


(** ** The lines of an export *)

Lemma rev_string_acc (s acc : string) :
  rev_string s acc = rev_string s EmptyString ++ acc.
Proof.
  revert acc. induction s as [|ch s IH]; intros acc; [reflexivity|].
  cbn [rev_string]. rewrite IH, (IH (String ch EmptyString)).
  rewrite append_assoc. reflexivity.
Qed.

Lemma rev_string_app (a b : string) :
  rev_string (a ++ b) EmptyString
  = rev_string b EmptyString ++ rev_string a EmptyString.
Proof.
  induction a as [|ch a IH]; cbn [append rev_string].
  - rewrite append_empty. reflexivity.
  - rewrite (rev_string_acc (a ++ b) (String ch EmptyString)), IH,
      (rev_string_acc a (String ch EmptyString)).
    rewrite append_assoc. reflexivity.
Qed.

Lemma rev_string_involutive (s : string) :
  rev_string (rev_string s EmptyString) EmptyString = s.
Proof.
  induction s as [|ch s IH]; [reflexivity|].
  cbn [rev_string].
  rewrite (rev_string_acc s (String ch EmptyString)), rev_string_app, IH.
  reflexivity.
Qed.

Lemma skip_ws_clean (s : string) : starts_clean s = true -> skip_ws s = s.
Proof.
  destruct s as [|ch s]; [discriminate|]. cbn.
  destruct (is_ws ch); [discriminate | reflexivity].
Qed.

Lemma starts_clean_app (a b : string) :
  starts_clean a = true -> starts_clean (a ++ b) = true.
Proof. destruct a; [discriminate | exact (fun H => H)]. Qed.

(** Trimming leaves a text that is clean at both ends alone, and drops a
    final line feed. *)
Lemma trim_clean (s : string) :
  starts_clean s = true -> ends_clean s = true -> trim s = s.
Proof.
  intros Hs He. unfold trim. rewrite (skip_ws_clean s Hs).
  rewrite (skip_ws_clean _ He). apply rev_string_involutive.
Qed.

Lemma trim_final_newline (s : string) :
  starts_clean s = true -> ends_clean s = true -> trim (s ++ NL) = s.
Proof.
  intros Hs He. unfold trim.
  rewrite (skip_ws_clean (s ++ NL) (starts_clean_app s NL Hs)).
  rewrite rev_string_app.
  change (rev_string NL EmptyString ++ rev_string s EmptyString)
    with (String newline (rev_string s EmptyString)).
  cbn [skip_ws]. change (is_ws newline) with true. cbv iota.
  rewrite (skip_ws_clean _ He). apply rev_string_involutive.
Qed.

Lemma split_on_nonempty (c : ascii) (s : string) : split_on c s <> [].
Proof.
  destruct s as [|d s]; cbn; [discriminate|].
  destruct (Ascii.eqb d c); [discriminate|].
  destruct (split_on c s); discriminate.
Qed.

Lemma split_on_no_separator (c : ascii) (s : string) :
  includes_char s c = false -> split_on c s = [s].
Proof.
  induction s as [|d s IH]; [reflexivity|].
  cbn. destruct (Ascii.eqb d c); [discriminate|].
  intros H. rewrite (IH H). reflexivity.
Qed.

Lemma split_on_app (c : ascii) (a b : string) :
  includes_char a c = false ->
  split_on c (a ++ String c b) = a :: split_on c b.
Proof.
  induction a as [|d a IH]; cbn [append split_on includes_char].
  - rewrite Ascii.eqb_refl. reflexivity.
  - destruct (Ascii.eqb d c); [discriminate|].
    intros H. rewrite (IH H). reflexivity.
Qed.

(** Every piece of a split is free of the separator. *)
Lemma split_on_pieces (c : ascii) (s : string) :
  Forall (fun l => includes_char l c = false) (split_on c s).
Proof.
  induction s as [|d s IH]; cbn [split_on].
  - repeat constructor.
  - destruct (Ascii.eqb d c) eqn:Hd.
    + constructor; [reflexivity | exact IH].
    + destruct (split_on c s) as [|x xs]; inversion IH; subst.
      * repeat constructor. cbn. rewrite Hd. reflexivity.
      * constructor; [|assumption]. cbn. rewrite Hd. assumption.
Qed.

Lemma split_join_lines (ls : list string) :
  ls <> [] ->
  Forall (fun l => includes_char l newline = false) ls ->
  split_on newline (join NL ls) = ls.
Proof.
  induction ls as [|l ls IH]; [congruence|]. intros _ Hall.
  inversion Hall as [|? ? Hl Hrest]; subst.
  destruct ls as [|l' ls].
  - cbn [join]. apply split_on_no_separator, Hl.
  - change (join NL (l :: l' :: ls)) with (l ++ String newline (join NL (l' :: ls))).
    rewrite split_on_app by exact Hl. rewrite IH by (discriminate || exact Hrest).
    reflexivity.
Qed.

Lemma record_line_parts (l : string) :
  record_line l = true ->
  starts_clean l = true /\ ends_clean l = true
  /\ includes_char l newline = false /\ truthy_string l = true.
Proof.
  unfold record_line. intros H.
  apply andb_prop in H. destruct H as [H Hn].
  apply andb_prop in H. destruct H as [Hs He].
  apply negb_true_iff in Hn. repeat split; try assumption.
  destruct l; [discriminate Hs | reflexivity].
Qed.

Lemma join_lines_clean (ls : list string) :
  ls <> [] ->
  Forall (fun l => record_line l = true) ls ->
  starts_clean (join NL ls) = true /\ ends_clean (join NL ls) = true.
Proof.
  induction ls as [|l ls IH]; [congruence|]. intros _ Hall.
  inversion Hall as [|? ? Hl Hrest]; subst.
  destruct (record_line_parts l Hl) as (Hs & He & _ & _).
  destruct ls as [|l' ls]; [cbn [join]; auto|].
  change (join NL (l :: l' :: ls)) with (l ++ NL ++ join NL (l' :: ls)).
  split; [apply starts_clean_app, Hs|].
  unfold ends_clean. rewrite !rev_string_app.
  do 2 apply starts_clean_app.
  apply (IH ltac:(discriminate) Hrest).
Qed.

Lemma filter_record_lines (ls : list string) :
  Forall (fun l => record_line l = true) ls -> filter truthy_string ls = ls.
Proof.
  induction 1 as [|l ls Hl _ IH]; [reflexivity|].
  cbn. destruct (record_line_parts l Hl) as (_ & _ & _ & ->).
  rewrite IH. reflexivity.
Qed.

Lemma no_newline_of_record_lines (ls : list string) :
  Forall (fun l => record_line l = true) ls ->
  Forall (fun l => includes_char l newline = false) ls.
Proof.
  apply Forall_impl. intros l Hl. apply (record_line_parts l Hl).
Qed.

(** X11.  The lines read from an export body are never empty and hold
    no line feed; a body of records, one per line, reads back to exactly
    those records, with or without a final line feed; and a body that is
    empty or all white space reads as no record at all. *)
Theorem export_lines_are_the_records (ls : list string)
  (Hrecords : Forall (fun l => record_line l = true) ls) :
  (forall t, Forall (fun l => l <> EmptyString
                              /\ includes_char l newline = false)
               (export_lines t))
  /\ export_lines (join NL ls) = ls
  /\ export_lines (join NL ls ++ NL) = ls
  /\ (forall t, skip_ws t = EmptyString -> export_lines t = []).
Proof.
  split; [|split; [|split]].
  - intros t. unfold export_lines.
    pose proof (split_on_pieces newline (trim t)) as Hpieces.
    induction Hpieces as [|l ls' Hl _ IH]; [constructor|].
    cbn [filter]. destruct (truthy_string l) eqn:Ht; [|exact IH].
    constructor; [|exact IH].
    split; [apply truthy_string_true, Ht | exact Hl].
  - destruct ls as [|l ls']; [reflexivity|].
    destruct (join_lines_clean (l :: ls') ltac:(discriminate) Hrecords)
      as [Hs He].
    unfold export_lines. rewrite (trim_clean _ Hs He).
    rewrite split_join_lines
      by (discriminate || apply no_newline_of_record_lines, Hrecords).
    apply filter_record_lines, Hrecords.
  - destruct ls as [|l ls']; [reflexivity|].
    destruct (join_lines_clean (l :: ls') ltac:(discriminate) Hrecords)
      as [Hs He].
    unfold export_lines. rewrite (trim_final_newline _ Hs He).
    rewrite split_join_lines
      by (discriminate || apply no_newline_of_record_lines, Hrecords).
    apply filter_record_lines, Hrecords.
  - intros t Ht. unfold export_lines, trim. rewrite Ht. reflexivity.
Qed.

Lemma export_lines_are_the_records_witness :
  export_lines ("{}" ++ NL ++ "{ }" ++ NL) = [ "{}"; "{ }" ].
Proof.
  exact (proj1 (proj2 (proj2 (export_lines_are_the_records [ "{}"; "{ }" ]
           ltac:(repeat constructor))))).
Defined.

End TablesAndExports.

(* ================================================================== *)
(** * Further properties: queries, addresses and bodies *)
(* ================================================================== *)

Section Queries.
Import Js Http Errors Async Env Client Worker Reference.

(** ** Encoding and decoding a query string *)

Lemma form_decode_encode_char (ch : ascii) (rest : string) :
  N.ltb (code ch) 128 = true ->
  form_decode (form_encode_char ch ++ rest) = String ch (form_decode rest).
Proof.
  destruct ch as [b0 b1 b2 b3 b4 b5 b6 b7].
  destruct b0, b1, b2, b3, b4, b5, b6, b7; intros H;
    try discriminate H; reflexivity.
Qed.

Lemma form_decode_encode (s : string) :
  is_ascii s = true -> form_decode (form_encode s) = s.
Proof.
  induction s as [|ch s IH]; [reflexivity|].
  cbn [is_ascii form_encode]. intros H.
  apply andb_prop in H. destruct H as [Hch Hs].
  rewrite form_decode_encode_char by exact Hch. rewrite (IH Hs). reflexivity.
Qed.

Lemma includes_char_app (a b : string) (x : ascii) :
  includes_char (a ++ b) x = (includes_char a x || includes_char b x)%bool.
Proof.
  induction a as [|ch a IH]; cbn; [reflexivity|].
  destruct (Ascii.eqb ch x); [reflexivity | exact IH].
Qed.

(** The encoded text holds no ampersand and no equals sign. *)
Lemma form_encode_char_separators (ch x : ascii) :
  In x [ ascii_of_N 38; ascii_of_N 61 ] ->
  includes_char (form_encode_char ch) x = false.
Proof.
  intros Hx.
  destruct ch as [b0 b1 b2 b3 b4 b5 b6 b7].
  destruct Hx as [<- | [<- | []]];
    destruct b0, b1, b2, b3, b4, b5, b6, b7; reflexivity.
Qed.

Lemma form_encode_separators (s : string) (x : ascii) :
  In x [ ascii_of_N 38; ascii_of_N 61 ] ->
  includes_char (form_encode s) x = false.
Proof.
  intros Hx. induction s as [|ch s IH]; [reflexivity|].
  cbn [form_encode]. rewrite includes_char_app, IH,
    (form_encode_char_separators ch x Hx). reflexivity.
Qed.

Lemma cut_at_app (c : ascii) (a b : string) :
  includes_char a c = false ->
  cut_at c (a ++ String c b) = (a, b).
Proof.
  induction a as [|d a IH]; cbn [append cut_at includes_char].
  - rewrite Ascii.eqb_refl. reflexivity.
  - destruct (Ascii.eqb d c); [discriminate|].
    intros H. rewrite (IH H). reflexivity.
Qed.

Lemma split_join (c : ascii) (ls : list string) :
  ls <> [] ->
  Forall (fun l => includes_char l c = false) ls ->
  split_on c (join (String c EmptyString) ls) = ls.
Proof.
  induction ls as [|l ls IH]; [congruence|]. intros _ Hall.
  inversion Hall as [|? ? Hl Hrest]; subst.
  destruct ls as [|l' ls].
  - cbn [join]. apply split_on_no_separator, Hl.
  - change (join (String c EmptyString) (l :: l' :: ls))
      with (l ++ String c (join (String c EmptyString) (l' :: ls))).
    rewrite split_on_app by exact Hl.
    rewrite IH by (discriminate || exact Hrest). reflexivity.
Qed.

(** A query string of ASCII names and values reads back to the pairs it
    was written from. *)
Lemma parse_query_toString (p : URLSearchParams) :
  p <> [] -> forallb ascii_pair p = true ->
  parse_query (usp_toString p) = p.
Proof.
  intros Hne Hascii. unfold parse_query, usp_toString.
  change "&" with (String (ascii_of_N 38) EmptyString).
  rewrite split_join.
  - rewrite map_map. clear Hne.
    induction p as [|[n v] p IH]; [reflexivity|].
    cbn [forallb] in Hascii. apply andb_prop in Hascii.
    destruct Hascii as [Hnv Hp]. unfold ascii_pair in Hnv. cbn [fst snd] in Hnv.
    apply andb_prop in Hnv. destruct Hnv as [Hn Hv].
    cbn [map fst snd]. rewrite (IH Hp).
    change ("=" ++ form_encode v) with (String (ascii_of_N 61) (form_encode v)).
    rewrite cut_at_app by (apply form_encode_separators; cbn; tauto).
    rewrite !form_decode_encode by assumption. reflexivity.
  - destruct p; [congruence | discriminate].
  - clear. induction p as [|[n v] p IH]; constructor; [|exact IH].
    cbn [fst snd].
    rewrite !includes_char_app, !form_encode_separators by (cbn; tauto).
    reflexivity.
Qed.

(** ** Parameter names *)

Lemma usp_set_names (p : URLSearchParams) (n v x : string) :
  In x (map fst (usp_set p n v)) -> In x (map fst p) \/ x = n.
Proof.
  induction p as [|[k v0] p IH]; cbn [usp_set map fst In].
  - intros [<- | []]. auto.
  - destruct (String.eqb k n) eqn:Hk; cbn [map fst In].
    + intros [<- | H]; [auto|].
      apply in_map_iff in H. destruct H as ([k' v'] & <- & H).
      apply filter_In in H. left. right. apply in_map_iff.
      exists (k', v'). tauto.
    + intros [<- | H]; [auto|]. destruct (IH H); auto.
Qed.

Lemma usp_set_NoDup (p : URLSearchParams) (n v : string) :
  NoDup (map fst p) -> NoDup (map fst (usp_set p n v)).
Proof.
  induction p as [|[k v0] p IH]; cbn [usp_set map fst].
  - intros _. repeat constructor. intros [].
  - intros H. inversion H as [|? ? Hnotin Hrest]; subst.
    destruct (String.eqb k n) eqn:Hk; cbn [map fst]; constructor.
    + intros Hin. apply in_map_iff in Hin. destruct Hin as ([k' v'] & Hk' & Hin).
      apply filter_In in Hin. destruct Hin as [_ Hneq]. cbn [fst] in *. subst k'.
      apply String.eqb_eq in Hk. subst n.
      rewrite String.eqb_refl in Hneq. discriminate.
    + clear IH H Hnotin Hk. induction p as [|[k' v'] p IHp]; [constructor|].
      cbn [filter fst]. cbn [map fst] in Hrest.
      inversion Hrest as [|? ? Hn' Hr']; subst.
      destruct (negb (String.eqb k' n)); [|exact (IHp Hr')].
      cbn [map fst]. constructor; [|exact (IHp Hr')].
      intros Hin. apply Hn'. apply in_map_iff in Hin.
      destruct Hin as ([k2 v2] & <- & Hin). apply filter_In in Hin.
      apply in_map_iff. exists (k2, v2). tauto.
    + intros Hin. apply usp_set_names in Hin. destruct Hin as [Hin | ->];
        [tauto|]. rewrite String.eqb_refl in Hk. discriminate.
    + exact (IH Hrest).
Qed.

Lemma set_if_NoDup (b : bool) (n v : string) (p : URLSearchParams) :
  NoDup (map fst p) -> NoDup (map fst (set_if b n v p)).
Proof. destruct b; [apply usp_set_NoDup | exact (fun H => H)]. Qed.

Lemma set_string_NoDup (o : option string) (n : string) (p : URLSearchParams) :
  NoDup (map fst p) -> NoDup (map fst (set_string o n p)).
Proof. apply set_if_NoDup. Qed.

Lemma set_number_NoDup (o : option Z) (n : string) (p : URLSearchParams) :
  NoDup (map fst p) -> NoDup (map fst (set_number o n p)).
Proof.
  destruct o; [apply set_if_NoDup | exact (fun H => H)].
Qed.

(** Setting another name leaves the first parameter where it is. *)
Lemma usp_set_head (p : URLSearchParams) (k x n v : string) :
  String.eqb k n = false ->
  hd_error p = Some (k, x) -> hd_error (usp_set p n v) = Some (k, x).
Proof.
  intros Hk. destruct p as [|[k' x'] p]; [discriminate|].
  cbn. intros [= -> ->]. rewrite Hk. reflexivity.
Qed.

Lemma set_if_head (b : bool) (p : URLSearchParams) (k x n v : string) :
  String.eqb k n = false ->
  hd_error p = Some (k, x) -> hd_error (set_if b n v p) = Some (k, x).
Proof. destruct b; [apply usp_set_head | exact (fun _ H => H)]. Qed.

Lemma set_string_head (o : option string) (p : URLSearchParams)
  (k x n : string) :
  String.eqb k n = false ->
  hd_error p = Some (k, x) -> hd_error (set_string o n p) = Some (k, x).
Proof. apply set_if_head. Qed.

Lemma set_number_head (o : option Z) (p : URLSearchParams) (k x n : string) :
  String.eqb k n = false ->
  hd_error p = Some (k, x) -> hd_error (set_number o n p) = Some (k, x).
Proof.
  destruct o; [apply set_if_head | exact (fun _ H => H)].
Qed.

(** ** The query methods *)

Ltac names_are_distinct :=
  repeat first [ apply set_string_NoDup | apply set_number_NoDup
               | apply set_if_NoDup | apply usp_set_NoDup ];
  cbn; repeat constructor; cbn; intuition discriminate.

Ltac project_id_is_first :=
  repeat first [ apply set_string_head; [reflexivity|]
               | apply set_number_head; [reflexivity|]
               | apply set_if_head; [reflexivity|]
               | apply usp_set_head; [reflexivity|] ];
  reflexivity.

Lemma query_params_NoDup (c : TenantCredentials) (op : QueryOp) :
  NoDup (map fst (query_params c op)).
Proof.
  destruct op; cbn [query_params];
    unfold queryInsights_params, querySegmentation_params,
      querySegmentationNumeric_params, querySegmentationSum_params,
      segmentation_on_base, getFunnel_params, listFunnels_params,
      getRetention_params, getFrequency_params, getProfileActivity_params,
      getEventNames_params, getEventProperties_params,
      getPropertyValues_params;
    cbv zeta;
    try match goal with
        | |- context [match ins_groupBy ?p with _ => _ end] =>
            destruct (ins_groupBy p)
        end;
    names_are_distinct.
Qed.

Lemma query_params_head (c : TenantCredentials) (op : QueryOp) :
  hd_error (query_params c op) = Some ("project_id", projectId c).
Proof.
  destruct op; cbn [query_params];
    unfold queryInsights_params, querySegmentation_params,
      querySegmentationNumeric_params, querySegmentationSum_params,
      segmentation_on_base, getFunnel_params, listFunnels_params,
      getRetention_params, getFrequency_params, getProfileActivity_params,
      getEventNames_params, getEventProperties_params,
      getPropertyValues_params;
    cbv zeta;
    try match goal with
        | |- context [match ins_groupBy ?p with _ => _ end] =>
            destruct (ins_groupBy p)
        end;
    project_id_is_first.
Qed.

(** X12.  Each query method that builds its address with
    [URLSearchParams] makes exactly one call: a GET (no method, no body)
    with the Basic-auth headers, to its path under the query base URL.
    The query string names every parameter once, the project id of the
    credentials first; and when names and values are ASCII it reads back
    to exactly the parameters the method set, so that no value, whatever
    ampersands, equals signs, spaces or percent signs it holds, adds or
    changes a parameter. *)
Theorem query_address_carries_the_parameters (c : TenantCredentials)
  (op : QueryOp) (w : World) :
  let q := usp_toString (query_params c op) in
  calls_of (query c op) w
  = [ {| url := getMixpanelApiUrl c ++ query_path op ++ "?" ++ q;
         method := None;
         headers := getAuthHeaders c;
         body := None |} ]
  /\ NoDup (map fst (query_params c op))
  /\ hd_error (query_params c op) = Some ("project_id", projectId c)
  /\ (forallb ascii_pair (query_params c op) = true ->
      parse_query q = query_params c op).
Proof.
  cbv zeta.
  split; [|split; [apply query_params_NoDup|split; [apply query_params_head|]]].
  - destruct op; cbn [query query_params query_path];
      unfold calls_of, queryInsights, querySegmentation,
        querySegmentationNumeric, querySegmentationSum,
        querySegmentationAverage, getFunnel, listFunnels, getRetention,
        getFrequency, getProfileActivity, getEventNames, getEventProperties,
        getPropertyValues;
      rewrite request_calls; reflexivity.
  - intros Hascii. apply parse_query_toString; [|exact Hascii].
    pose proof (query_params_head c op) as Hhead.
    destruct (query_params c op); [discriminate | discriminate].
Qed.

Lemma query_address_carries_the_parameters_witness :
  parse_query
    (usp_toString
       (query_params (mkCredentials "svc" "shh" "123" None None)
          (QSegmentation
             (mkSegmentationParams "Sign up" "2024-01-01" "2024-01-31" None None
                (Some "a=1&b=2 %") None))))
  = [ ("project_id", "123"); ("event", "Sign up");
      ("from_date", "2024-01-01"); ("to_date", "2024-01-31");
      ("where", "a=1&b=2 %") ].
Proof.
  exact (proj2 (proj2 (proj2 (query_address_carries_the_parameters
           (mkCredentials "svc" "shh" "123" None None)
           (QSegmentation
              (mkSegmentationParams "Sign up" "2024-01-01" "2024-01-31"
                 None None (Some "a=1&b=2 %") None))
           (answering (mkResponse 200 [] "{}") 0)))) eq_refl).
Defined.

(** ** Schema addresses *)






(** ** The connection test *)



(** ** One call at most *)

(** X15.  An ingestion-class operation never calls out twice, whatever
    the service answers (no retry, no fan-out): it makes exactly one
    call when it is a GDPR request or the credentials hold a project
    token, and none otherwise. *)
Theorem ingestion_operation_calls_at_most_once (c : TenantCredentials)
  (op : IngestionOp) (w : World) :
  length (calls_of (invoke c op) w)
  = if (is_gdpr op || truthy_opt (projectToken c))%bool then 1%nat else 0%nat.
Proof.
  destruct (is_gdpr op) eqn:Hop.
  - destruct (gdpr_calls_once c op w Hop) as (call & -> & _). reflexivity.
  - cbn [orb].
    destruct op; try discriminate Hop; unfold_method; unfold calls_of;
      destruct (truthy_opt (projectToken c)); cbn [negb]; try reflexivity.
    rewrite run_bind_fst.
    match goal with
    | |- context [requestIngestion c ?e ?d ?u] =>
        destruct (requestIngestion_calls c e d u w) as (call & -> & _)
    end.
    reflexivity.
Qed.

(** ** Operations that report success *)




(** ** JSON bodies *)

Lemma json_unescape_escape_char (ch : ascii) (rest : string) :
  json_unescape (json_escape_char ch ++ rest)
  = option_map (String ch) (json_unescape rest).
Proof.
  destruct ch as [b0 b1 b2 b3 b4 b5 b6 b7].
  destruct b0, b1, b2, b3, b4, b5, b6, b7; reflexivity.
Qed.

(** A string written by [JSON.stringify] reads back as it was. *)
Lemma json_unquote_quote (s : string) : json_unquote (json_quote s) = Some s.
Proof.
  unfold json_quote. change (DQ ++ json_escape s ++ DQ)
    with (String dquote (json_escape s ++ DQ)).
  cbn [json_unquote]. change (N.eqb (code dquote) 34) with true. cbv iota.
  induction s as [|ch s IH]; [reflexivity|].
  cbn [json_escape]. rewrite append_assoc, json_unescape_escape_char, IH.
  reflexivity.
Qed.

(** X17.  A JQL script is sent in one POST under the query base URL
    whose body is the JSON text of an object with the project id and the
    script, each written as a JSON string that reads back to the value
    given: whatever quotes, backslashes or control characters the script
    holds, they stay inside its string.  The cohort list sends the
    project id the same way. *)
Theorem jql_script_stays_in_its_string (c : TenantCredentials)
  (script : string) (w : World) :
  calls_of (executeJQL c script) w
  = [ {| url := getMixpanelApiUrl c ++ "/jql";
         method := Some "POST";
         headers := getAuthHeaders c;
         body := Some ("{" ++ quoted "project_id" ++ ":"
                         ++ json_quote (projectId c) ++ ","
                         ++ quoted "script" ++ ":" ++ json_quote script
                         ++ "}") |} ]
  /\ calls_of (listCohorts c) w
     = [ {| url := getMixpanelApiUrl c ++ "/cohorts/list";
            method := Some "POST";
            headers := getAuthHeaders c;
            body := Some ("{" ++ quoted "project_id" ++ ":"
                            ++ json_quote (projectId c) ++ "}") |} ]
  /\ json_unquote (json_quote script) = Some script
  /\ json_unquote (json_quote (projectId c)) = Some (projectId c).
Proof.
  split; [|split; [|split; apply json_unquote_quote]].
  - unfold calls_of, executeJQL. rewrite request_calls.
    unfold request_call. cbn. unfold json_quote, quoted, DQ.
    repeat (progress (cbn; rewrite ?append_assoc)). reflexivity.
  - unfold calls_of, listCohorts. rewrite request_calls.
    unfold request_call. cbn. unfold json_quote, quoted, DQ.
    repeat (progress (cbn; rewrite ?append_assoc)). reflexivity.
Qed.

End Queries.
